(** * Semantic-segmentation trainer: epoch loop, gradient accumulation,
      best-model checkpointing and the command-line defaults

    A shallow embedding of [src/modules/trainer.py] and [src/parser.py].

    - Python [float] is IEEE binary64: the kernel's primitive floats.
    - Python [int] is [Z]; [%] is floored, as [Z.modulo], and raises on a
      zero divisor.
    - The collaborators handed to [Trainer.__init__] (model, optimizer,
      criterion, metric) are an interface, [Collaborators]; the writer, the
      progress bar, standard output and the checkpoint files are observed
      through the chronological log of calls each method makes.
    - A method is a function from the mutable world to an outcome (a value or
      a raised exception), the new world and the calls made. *)

From Stdlib Require Import ZArith List String Ascii Bool Lia.
From Stdlib Require Import DecimalString.
From Stdlib Require Import PrimFloat FloatOps SpecFloat.
From Stdlib Require Import FloatAxioms.
Import ListNotations.

#[local] Set Warnings "-inexact-float".
#[local] Open Scope Z_scope.

(* ------------------------------------------------------------------ *)
(** ** The Python operations the two files rely on *)

Module Py.

Inductive exn : Set :=
| ZeroDivisionError
| UnboundLocalError
| ValueError
| TypeError.

(** Outcome of an expression that may raise. *)
Inductive res (A : Type) : Type :=
| Ret (a : A)
| Raise (e : exn).
Arguments Ret {A} a.
Arguments Raise {A} e.

(** [float(z)] of an [int]: the nearest binary64, ties to even. *)
Definition float_of_int (z : Z) : float :=
  SF2Prim (binary_normalize prec emax z 0 false).

(** [a % b] on [int]. *)
Definition mod_ (a b : Z) : res Z :=
  if b =? 0 then Raise ZeroDivisionError else Ret (a mod b).

(** [x / n] with [x] a [float] and [n] an [int]. *)
Definition truediv (x : float) (n : Z) : res float :=
  if n =? 0 then Raise ZeroDivisionError
  else Ret (PrimFloat.div x (float_of_int n)).

(** [range(lo, hi)]. *)
Definition range (lo hi : Z) : list Z :=
  map (fun i => lo + Z.of_nat i) (seq 0 (Z.to_nat (hi - lo))).

(** ["{}".format(z)] of an [int]. *)
Definition str_of_int (z : Z) : string :=
  NilZero.string_of_int (Z.to_int z).

Fixpoint ends_with_slash (s : string) : bool :=
  match s with
  | EmptyString => false
  | String c EmptyString => Ascii.eqb c "/"%char
  | String _ rest => ends_with_slash rest
  end.

Definition starts_with_slash (s : string) : bool :=
  match s with
  | String c _ => Ascii.eqb c "/"%char
  | EmptyString => false
  end.

(** [os.path.join(a, b)] on a POSIX system. *)
Definition path_join (a b : string) : string :=
  if starts_with_slash b then b
  else if (match a with EmptyString => true | _ => ends_with_slash a end)
       then (a ++ b)%string
       else (a ++ "/" ++ b)%string.

(** [np.concatenate(arrays)] along the first axis, an array being the list
    of its entries along that axis: it raises on an empty sequence. *)
Definition np_concatenate {A : Type} (arrays : list (list A)) : res (list A) :=
  match arrays with
  | [] => Raise ValueError
  | _ => Ret (List.concat arrays)
  end.

End Py.
Import Py.

(* ------------------------------------------------------------------ *)
(** ** Methods: world passing, exceptions and the log of calls *)

Section Method.
Context {W C : Type}.

Definition M (A : Type) : Type := W -> res A * W * list C.

Definition ret {A} (a : A) : M A := fun w => (Ret a, w, []).

Definition bind {A B} (m : M A) (k : A -> M B) : M B :=
  fun w =>
    match m w with
    | (Ret a, w1, cs1) =>
        let '(r, w2, cs2) := k a w1 in (r, w2, cs1 ++ cs2)
    | (Raise e, w1, cs1) => (Raise e, w1, cs1)
    end.

(** An expression that may raise, evaluated inside a method. *)
Definition eval {A} (r : res A) : M A := fun w => (r, w, []).

(** A call on a collaborator: it is logged, changes the world by [upd]
    and reads its value off the world it was made in. *)
Definition call {A} (c : C) (upd : W -> W) (value : W -> A) : M A :=
  fun w => (Ret (value w), upd w, [c]).

Definition outcome {A} (x : res A * W * list C) : res A := fst (fst x).
Definition world {A} (x : res A * W * list C) : W := snd (fst x).
Definition calls {A} (x : res A * W * list C) : list C := snd x.

(** [for idx, x in enumerate(xs): s = body idx x s], [idx] counted from
    [start]. *)
Fixpoint for_enumerate {A S} (body : Z -> A -> S -> M S)
         (start : Z) (xs : list A) (s : S) : M S :=
  match xs with
  | [] => ret s
  | x :: rest =>
      bind (body start x s) (for_enumerate body (start + 1) rest)
  end.

(** [for x in xs: s = body x s]. *)
Fixpoint for_each {A S} (body : A -> S -> M S) (xs : list A) (s : S) : M S :=
  match xs with
  | [] => ret s
  | x :: rest => bind (body x s) (for_each body rest)
  end.

(** A run continued after the calls [cs] were made. *)
Definition prepend {A} (cs : list C) (x : res A * W * list C)
  : res A * W * list C :=
  (outcome x, world x, cs ++ calls x).

End Method.

Declare Scope method_scope.
Delimit Scope method_scope with method.
Notation "x <- m ;; k" := (bind m (fun x => k))
  (at level 100, m at next level, right associativity) : method_scope.
Notation "' p <- m ;; k" := (bind m (fun x => match x with p => k end))
  (at level 100, p pattern, m at next level, right associativity)
  : method_scope.
Notation "m ;; k" := (bind m (fun _ => k))
  (at level 100, right associativity) : method_scope.
#[local] Open Scope method_scope.

(* ------------------------------------------------------------------ *)
(** ** The collaborators of the trainer *)

(** What [Trainer] asks of the objects it is built from.  A batch of label
    maps moved to numpy is the list of its maps along the batch axis. *)
Class Collaborators : Type := {
  Imgs : Type;
  Segs : Type;
  Logits : Type;
  Mask : Type;
  Params : Type;
  Grads : Type;
  OptState : Type;
  MetricState : Type;
  (** [self.model(imgs)], in training or evaluation mode *)
  model_forward : bool -> Params -> Imgs -> Logits;
  (** [self.criterion(preds, segs)], read as [loss.item()] *)
  criterion : Logits -> Segs -> float;
  (** [loss.backward()]: adds this batch's gradient to the stored one *)
  loss_backward : bool -> Params -> Imgs -> Segs -> Grads -> Grads;
  (** [self.optimizer.zero_grad()] and [self.optimizer.step()] *)
  zero_grad : Grads -> Grads;
  step : OptState -> Params -> Grads -> OptState * Params;
  (** [F.softmax(preds, dim=1).max(dim=1)[1]] and [t.cpu().numpy()] *)
  softmax_argmax : Logits -> list Mask;
  segs_numpy : Segs -> list Mask;
  (** [self.metric] *)
  metric_name : string;
  metric_reset : MetricState -> MetricState;
  metric_update : list Mask -> list Mask -> MetricState -> MetricState;
  metric_get_score : MetricState -> float;
  metric_print_score : MetricState -> string;
  (** [mean_iou_evaluate.mean_iou_score] *)
  mean_iou_score : list Mask -> list Mask -> float
}.

Section TrainerModel.
Context {K : Collaborators}.

(** The mutable objects a method can touch. *)
Record World : Type := {
  params : Params;
  grads : Grads;
  opt_state : OptState;
  training : bool;
  metric : MetricState
}.

Definition set_training (b : bool) (w : World) : World :=
  {| params := params w; grads := grads w; opt_state := opt_state w;
     training := b; metric := metric w |}.

Definition set_grads (g : Grads) (w : World) : World :=
  {| params := params w; grads := g; opt_state := opt_state w;
     training := training w; metric := metric w |}.

Definition set_optimized (op : OptState * Params) (w : World) : World :=
  {| params := snd op; grads := grads w; opt_state := fst op;
     training := training w; metric := metric w |}.

Definition set_metric (m : MetricState) (w : World) : World :=
  {| params := params w; grads := grads w; opt_state := opt_state w;
     training := training w; metric := m |}.

(** The labels of the four numbers [fit] reports after an epoch. *)
Inductive Label : Set :=
| TrainLoss
| TrainMeanIOU
| ValidLoss
| ValidMeanIOU.

(** The lines [print] writes; a reported number is kept as the [float] that
    is formatted. *)
Inductive Line : Set :=
| StartTraining
| BestModelSaved
| Report (label : Label) (v : float)
| Blank.

(** The calls a method makes on its collaborators, on the writer, on the
    progress bar, on standard output and on [torch.save]. *)
Inductive Call : Type :=
| ModelTrain
| ModelEval
| ModelForward
| Criterion
| Backward
| ZeroGrad
| Step
| MetricReset
| MetricUpdate
| MetricGetScore
| MetricPrintScore
| MeanIouScore
| AddScalar (tag : string) (value : float) (global_step : Z)
| SetPostfix (loss : float) (name score : string)
| Print (line : Line)
| TorchSave (state_dict : Params) (path : string).

Definition Method (A : Type) : Type := @M World Call A.

(** The fields [__init__] stores that are plain data. *)
Record Trainer : Type := {
  accumulate_gradient : Z;
  train_loader : list (Imgs * Segs);
  val_loader : list (Imgs * Segs);
  save_dir : string
}.

Variable self : Trainer.

Definition model_train : Method unit :=
  call ModelTrain (set_training true) (fun _ => tt).

Definition model_eval : Method unit :=
  call ModelEval (set_training false) (fun _ => tt).

Definition model_call (imgs : Imgs) : Method Logits :=
  call ModelForward (fun w => w)
       (fun w => model_forward (training w) (params w) imgs).

Definition criterion_call (preds : Logits) (segs : Segs) : Method float :=
  call Criterion (fun w => w) (fun _ => criterion preds segs).

Definition loss_backward_call (imgs : Imgs) (segs : Segs) : Method unit :=
  call Backward
       (fun w => set_grads
                   (loss_backward (training w) (params w) imgs segs (grads w)) w)
       (fun _ => tt).

Definition optimizer_zero_grad : Method unit :=
  call ZeroGrad (fun w => set_grads (zero_grad (grads w)) w) (fun _ => tt).

Definition optimizer_step : Method unit :=
  call Step
       (fun w => set_optimized (step (opt_state w) (params w) (grads w)) w)
       (fun _ => tt).

Definition metric_reset_call : Method unit :=
  call MetricReset (fun w => set_metric (metric_reset (metric w)) w)
       (fun _ => tt).

Definition metric_update_call (preds segs : list Mask) : Method unit :=
  call MetricUpdate
       (fun w => set_metric (metric_update preds segs (metric w)) w)
       (fun _ => tt).

Definition metric_get_score_call : Method float :=
  call MetricGetScore (fun w => w) (fun w => metric_get_score (metric w)).

Definition metric_print_score_call : Method string :=
  call MetricPrintScore (fun w => w) (fun w => metric_print_score (metric w)).

Definition mean_iou_score_call (preds segs : list Mask) : Method float :=
  call MeanIouScore (fun w => w) (fun _ => mean_iou_score preds segs).

Definition writer_add_scalar (tag : string) (value : float) (global_step : Z)
  : Method unit :=
  call (AddScalar tag value global_step) (fun w => w) (fun _ => tt).

(** [trange.set_postfix(loss=loss, **{name: score})], its arguments already
    evaluated.  A mapping whose key is [loss] repeats the keyword written in
    the call, which Python refuses with [TypeError] before the progress bar
    is entered. *)
Definition trange_set_postfix (loss : float) (name score : string)
  : Method unit :=
  if String.eqb name "loss" then eval (Raise TypeError)
  else call (SetPostfix loss name score) (fun w => w) (fun _ => tt).

Definition print (line : Line) : Method unit :=
  call (Print line) (fun w => w) (fun _ => tt).

(** [Trainer.save]: [torch.save(self.model.state_dict(), path)]. *)
Definition save (path : string) : Method unit :=
  fun w => (Ret tt, w, [TorchSave (params w) path]).

(** *** [Trainer._run_one_epoch] *)

(** The local variables of [_run_one_epoch] the loop assigns; [idx] stays
    unbound until the loop body has run. *)
Record Locals : Type := {
  loc_idx : option Z;
  loc_iters : Z;
  loc_batch_loss : float
}.

(** Reading the loop variable [idx] after the loop. *)
Definition read_idx (idx : option Z) : Method Z :=
  eval (match idx with Some i => Ret i | None => Raise UnboundLocalError end).

(** One pass through the body of the batch loop (lines 78-109).  Moving the
    batch to the GPU changes no value and is left out.  The arguments of
    [set_postfix] are evaluated left to right: the quotient, the metric's
    name, [print_score()]; only then is the call made, and it raises
    [TypeError] when the metric is itself named [loss]. *)
Definition train_batch (idx : Z) (batch : Imgs * Segs) (l : Locals)
  : Method Locals :=
  let iters := loc_iters l + 1 in
  let '(imgs, segs) := batch in
  preds <- model_call imgs ;;
  loss <- criterion_call preds segs ;;
  r <- eval (Py.mod_ idx (accumulate_gradient self)) ;;
  (if r =? 0 then optimizer_zero_grad else ret tt) ;;
  loss_backward_call imgs segs ;;
  r' <- eval (Py.mod_ (idx + 1) (accumulate_gradient self)) ;;
  (if r' =? 0 then optimizer_step else ret tt) ;;
  metric_update_call (softmax_argmax preds) (segs_numpy segs) ;;
  let batch_loss := PrimFloat.add (loc_batch_loss l) loss in
  writer_add_scalar "loss/train_loss" loss iters ;;
  shown <- eval (Py.truediv batch_loss (idx + 1)) ;;
  score <- metric_print_score_call ;;
  trange_set_postfix shown metric_name score ;;
  ret {| loc_idx := Some idx; loc_iters := iters;
         loc_batch_loss := batch_loss |}.

(** The step after the loop (lines 111-113). *)
Definition trailing_step (idx : Z) : Method unit :=
  r <- eval (Py.mod_ idx 4) ;;
  if r =? 0 then (optimizer_step ;; optimizer_zero_grad) else ret tt.

(** The batch loop, entered with [idx] unbound and [batch_loss = 0.0]. *)
Definition train_loop (iters : Z) : Method Locals :=
  for_enumerate train_batch 0 (train_loader self)
    {| loc_idx := None; loc_iters := iters; loc_batch_loss := 0%float |}.

(** The progress bar [tqdm(enumerate(...))] hands on what [enumerate]
    yields; it is seen only through [set_postfix]. *)
Definition _run_one_epoch (epoch iters : Z) : Method (float * float * Z) :=
  model_train ;;
  metric_reset_call ;;
  l <- train_loop iters ;;
  idx <- read_idx (loc_idx l) ;;
  trailing_step idx ;;
  logged <- metric_get_score_call ;;
  writer_add_scalar "mIoU/train_miou" logged epoch ;;
  loss <- eval (Py.truediv (loc_batch_loss l) (idx + 1)) ;;
  score <- metric_get_score_call ;;
  ret (loss, score, loc_iters l).

(** *** [Trainer._eval_one_epoch] *)

Record EvalLocals : Type := {
  ev_idx : option Z;
  ev_iters : Z;
  ev_batch_loss : float;
  val_preds : list (list Mask);
  val_segs : list (list Mask)
}.

(** One pass through the body of the validation loop (lines 141-163). *)
Definition eval_batch (idx : Z) (batch : Imgs * Segs) (l : EvalLocals)
  : Method EvalLocals :=
  let iters := ev_iters l + 1 in
  let '(imgs, segs) := batch in
  preds <- model_call imgs ;;
  loss <- criterion_call preds segs ;;
  let val_preds' := val_preds l ++ [softmax_argmax preds] in
  let val_segs' := val_segs l ++ [segs_numpy segs] in
  let batch_loss := PrimFloat.add (ev_batch_loss l) loss in
  writer_add_scalar "loss/val_loss" loss iters ;;
  ret {| ev_idx := Some idx; ev_iters := iters; ev_batch_loss := batch_loss;
         val_preds := val_preds'; val_segs := val_segs' |}.

Definition best_path : string :=
  Py.path_join (save_dir self) "model_best.pth.tar".

(** The validation loop, entered with [idx] unbound, [batch_loss = 0.0] and
    empty buffers. *)
Definition eval_loop (iters : Z) : Method EvalLocals :=
  for_enumerate eval_batch 0 (val_loader self)
    {| ev_idx := None; ev_iters := iters; ev_batch_loss := 0%float;
       val_preds := []; val_segs := [] |}.

Definition _eval_one_epoch (epoch iters : Z) (best_iou : float)
  : Method (float * float * Z * float) :=
  model_eval ;;
  metric_reset_call ;;
  l <- eval_loop iters ;;
  all_preds <- eval (Py.np_concatenate (val_preds l)) ;;
  all_segs <- eval (Py.np_concatenate (val_segs l)) ;;
  val_iou <- mean_iou_score_call all_preds all_segs ;;
  writer_add_scalar "mIoU/val_miou" val_iou epoch ;;
  best_iou' <- (if PrimFloat.ltb best_iou val_iou
                then (print BestModelSaved ;; save best_path ;; ret val_iou)
                else ret best_iou) ;;
  idx <- read_idx (ev_idx l) ;;
  loss <- eval (Py.truediv (ev_batch_loss l) (idx + 1)) ;;
  ret (loss, val_iou, ev_iters l, best_iou').

(** *** [Trainer.fit] *)

Definition epoch_path (epoch : Z) : string :=
  Py.path_join (save_dir self)
               ("model_" ++ Py.str_of_int epoch ++ ".pth.tar")%string.

(** The variables [fit] carries from one epoch to the next:
    [iters], [val_iters] and [best_iou]. *)
Definition FitVars : Type := (Z * Z * float)%type.

(** The body of the epoch loop (lines 42-55). *)
Definition fit_epoch (epoch : Z) (v : FitVars) : Method FitVars :=
  let '(iters, val_iters, best_iou) := v in
  '(train_loss, train_iou, iters') <- _run_one_epoch epoch iters ;;
  '(val_loss, val_iou, val_iters', best_iou') <-
     _eval_one_epoch epoch val_iters best_iou ;;
  print (Report TrainLoss train_loss) ;;
  print (Report TrainMeanIOU train_iou) ;;
  print (Report ValidLoss val_loss) ;;
  print (Report ValidMeanIOU val_iou) ;;
  print Blank ;;
  save (epoch_path epoch) ;;
  ret (iters', val_iters', best_iou').

Definition fit (epochs : Z) : Method unit :=
  print StartTraining ;;
  for_each fit_epoch (Py.range 1 (epochs + 1)) (-1, -1, 0%float) ;;
  ret tt.

End TrainerModel.

(* ------------------------------------------------------------------ *)
(** ** [parser.arg_parse] *)

Module ArgParse.

Inductive ArgType : Set := TStr | TInt | TFloat.

Inductive Value : Set :=
| VStr (s : string)
| VInt (z : Z)
| VFloat (f : float)
| VBool (b : bool).

Inductive Action : Set :=
| Store (type : ArgType)
| StoreTrue
| Help.

(** What one [add_argument] call registers. *)
Record Argument : Set := {
  flags : list string;
  dest : string;
  action : Action;
  default : Value
}.

(** The attribute an option is stored under: its long flag without the two
    dashes, every other dash turned into an underscore. *)
Fixpoint dashes_to_underscores (s : string) : string :=
  match s with
  | EmptyString => EmptyString
  | String c rest =>
      String (if Ascii.eqb c "-"%char then "_"%char else c)
             (dashes_to_underscores rest)
  end.

Definition dest_of (flag : string) : string :=
  match flag with
  | String "-" (String "-" name) => dashes_to_underscores name
  | _ => dashes_to_underscores flag
  end.

Definition add_argument (flag : string) (a : Action) (d : Value) : Argument :=
  {| flags := [flag]; dest := dest_of flag; action := a; default := d |}.

(** [ArgumentParser(...)] registers [-h/--help] by itself. *)
Definition help_argument : Argument :=
  {| flags := ["-h"; "--help"]%string; dest := "help"; action := Help;
     default := VBool false |}.

(** The parser [arg_parse] builds (lines 8-55), in registration order. *)
Definition parser : list Argument :=
  [ help_argument;
    add_argument "--data_dir" (Store TStr) (VStr "hw2_data");
    add_argument "--workers" (Store TInt) (VInt 4);
    add_argument "--save_dir" (Store TStr) (VStr "models");
    add_argument "--pretrained" StoreTrue (VBool false);
    add_argument "--gpu" (Store TInt) (VInt 0);
    add_argument "--epoch" (Store TInt) (VInt 100);
    add_argument "--val_epoch" (Store TInt) (VInt 1);
    add_argument "--train_batch" (Store TInt) (VInt 32);
    add_argument "--test_batch" (Store TInt) (VInt 32);
    add_argument "--lr" (Store TFloat) (VFloat 0.0002);
    add_argument "--weight-decay" (Store TFloat) (VFloat 0.0005);
    add_argument "--resume" (Store TStr) (VStr EmptyString);
    add_argument "--random_seed" (Store TInt) (VInt 42) ].

(** A [Namespace]: attributes in the order they were first set. *)
Definition Namespace : Set := list (string * Value).

Fixpoint setattr (name : string) (v : Value) (ns : Namespace) : Namespace :=
  match ns with
  | [] => [(name, v)]
  | (n, old) :: rest =>
      if String.eqb n name then (n, v) :: rest
      else (n, old) :: setattr name v rest
  end.

Fixpoint getattr (name : string) (ns : Namespace) : option Value :=
  match ns with
  | [] => None
  | (n, v) :: rest => if String.eqb n name then Some v else getattr name rest
  end.

(** The namespace before any argument is read: every default, the help
    action storing nothing. *)
Definition defaults (p : list Argument) : Namespace :=
  fold_left
    (fun ns a => match action a with
                 | Help => ns
                 | _ => setattr (dest a) (default a) ns
                 end)
    p [].

Inductive Outcome : Set :=
| Parsed (ns : Namespace)
| SystemExit (code : Z)
| OutOfScope.

(** How [parse_args] reads one command-line string. *)
Inductive Token : Set :=
| Positional
| Optional (a : Argument) (explicit : option string)
| Other.

Definition is_digit (c : ascii) : bool :=
  let n := N_of_ascii c in ((48 <=? n) && (n <=? 57))%N.

Fixpoint all_digits (s : string) : bool :=
  match s with
  | EmptyString => true
  | String c rest => is_digit c && all_digits rest
  end.

Fixpoint digits_then_fraction (s : string) : bool :=
  match s with
  | EmptyString => false
  | String c rest =>
      if Ascii.eqb c "."%char
      then negb (String.eqb rest EmptyString) && all_digits rest
      else is_digit c && digits_then_fraction rest
  end.

(** argparse's negative-number pattern: [-\d+] or [-\d*\.\d+]. *)
Definition is_negative_number (s : string) : bool :=
  match s with
  | String "-" rest =>
      (negb (String.eqb rest EmptyString) && all_digits rest) || digits_then_fraction rest
  | _ => false
  end.

Fixpoint split_at_equals (s : string) : option (string * string) :=
  match s with
  | EmptyString => None
  | String c rest =>
      if Ascii.eqb c "="%char then Some (EmptyString, rest)
      else match split_at_equals rest with
           | Some (l, r) => Some (String c l, r)
           | None => None
           end
  end.

Definition find_flag (p : list Argument) (flag : string) : option Argument :=
  find (fun a => existsb (String.eqb flag) (flags a)) p.

(** A string is a positional argument when it is empty, does not start with a
    dash, is a lone dash or looks like a negative number; it is an option
    when it is a registered flag, or a registered long flag, [=] and a value
    other than [--].  Every other string ([--], also as the value after [=],
    abbreviated or unknown options, ...) is left out of this model. *)
Definition classify (p : list Argument) (t : string) : Token :=
  match t with
  | EmptyString => Positional
  | String "-" EmptyString => Positional
  | String "-" rest =>
      match find_flag p t with
      | Some a => Optional a None
      | None =>
          if is_negative_number t then Positional
          else match rest, split_at_equals t with
               | String "-" _, Some (flag, v) =>
                   match find_flag p flag with
                   | Some a => if String.eqb v "--" then Other
                               else Optional a (Some v)
                   | None => Other
                   end
               | _, _ => Other
               end
      end
  | _ => Positional
  end.

Section Builtins.
(** The builtins [int] and [float] applied to a string: [None] when they
    raise [ValueError]. *)
Variable py_int : string -> option Z.
Variable py_float : string -> option float.

Definition convert (ty : ArgType) (s : string) : option Value :=
  match ty with
  | TStr => Some (VStr s)
  | TInt => option_map VInt (py_int s)
  | TFloat => option_map VFloat (py_float s)
  end.

(** Reading the command line left to right: [pending] is the option that
    still waits for its value, [extras] whether a positional string was
    met (the parser registers none, which is an error once all is read). *)
Fixpoint consume (p : list Argument) (tokens : list string)
         (ns : Namespace) (pending : option Argument) (extras : bool)
  : Outcome :=
  match tokens with
  | [] =>
      match pending with
      | Some _ => SystemExit 2
      | None => if extras then SystemExit 2 else Parsed ns
      end
  | t :: rest =>
      match pending, classify p t with
      | _, Other => OutOfScope
      | Some a, Positional =>
          match action a with
          | Store ty =>
              match convert ty t with
              | Some v => consume p rest (setattr (dest a) v ns) None extras
              | None => SystemExit 2
              end
          | _ => SystemExit 2
          end
      | Some _, Optional _ _ => SystemExit 2
      | None, Positional => consume p rest ns None true
      | None, Optional a None =>
          match action a with
          | Help => SystemExit 0
          | StoreTrue => consume p rest (setattr (dest a) (VBool true) ns) None extras
          | Store _ => consume p rest ns (Some a) extras
          end
      | None, Optional a (Some v) =>
          match action a with
          | Store ty =>
              match convert ty v with
              | Some x => consume p rest (setattr (dest a) x ns) None extras
              | None => SystemExit 2
              end
          | _ => SystemExit 2
          end
      end
  end.

Definition in_scope (p : list Argument) (argv : list string) : bool :=
  forallb (fun t => match classify p t with Other => false | _ => true end) argv.

(** [parser.parse_args()] on [sys.argv[1:]]. *)
Definition parse_args (p : list Argument) (argv : list string) : Outcome :=
  if in_scope p argv then consume p argv (defaults p) None false
  else OutOfScope.

(** [arg_parse()], the command line made explicit. *)
Definition arg_parse (argv : list string) : Outcome :=
  parse_args parser argv.

End Builtins.

End ArgParse.

(* ------------------------------------------------------------------ *)
(** ** What a log of calls shows *)

(** The sum the epoch loops keep: [batch_loss = 0.0], then
    [batch_loss += loss] batch after batch. *)
Definition fsum (losses : list float) : float :=
  fold_left PrimFloat.add losses 0%float.

Fixpoint filter_map {A B : Type} (f : A -> option B) (l : list A) : list B :=
  match l with
  | [] => []
  | x :: rest =>
      match f x with
      | Some y => y :: filter_map f rest
      | None => filter_map f rest
      end
  end.

Section Observations.
Context {K : Collaborators}.
Variable self : Trainer.

Definition is_step (c : Call) : bool :=
  match c with Step => true | _ => false end.

Definition is_zero_grad (c : Call) : bool :=
  match c with ZeroGrad => true | _ => false end.

(** Calls that change, or prepare a change of, the model parameters or the
    running metric. *)
Definition is_update (c : Call) : bool :=
  match c with
  | Step | ZeroGrad | Backward | MetricUpdate => true
  | _ => false
  end.

(** Calls that read the running metric. *)
Definition is_metric_read (c : Call) : bool :=
  match c with MetricGetScore | MetricPrintScore => true | _ => false end.

Definition is_mean_iou_score (c : Call) : bool :=
  match c with MeanIouScore => true | _ => false end.

Definition count (p : Call -> bool) (cs : list Call) : nat :=
  List.length (filter p cs).

(** The values the writer received under [tag], in order. *)
Definition logged (tag : string) (cs : list Call) : list float :=
  filter_map
    (fun c => match c with
              | AddScalar t v _ => if String.eqb t tag then Some v else None
              | _ => None
              end)
    cs.

(** The optimizer's part in an epoch: each batch opens with the forward
    pass. *)
Definition optimizer_view (c : Call) : bool :=
  match c with
  | ModelForward | ZeroGrad | Step => true
  | _ => false
  end.

(** Validation scores and best-model checkpoints. *)
Inductive ValEvent : Set :=
| Scored (epoch : Z) (val_iou : float)
| BestSaved.

Definition val_event (c : Call) : option ValEvent :=
  match c with
  | AddScalar t v e =>
      if String.eqb t "mIoU/val_miou" then Some (Scored e v) else None
  | TorchSave _ p =>
      if String.eqb p (best_path self) then Some BestSaved else None
  | _ => None
  end.

Definition val_events (cs : list Call) : list ValEvent :=
  filter_map val_event cs.

Definition val_scores (cs : list Call) : list (Z * float) :=
  filter_map
    (fun c => match val_event c with
              | Some (Scored e v) => Some (e, v)
              | _ => None
              end)
    cs.

(** The spec's best-IoU tracker: a score is followed by a best-model
    checkpoint exactly when it strictly exceeds the best so far, which it
    then replaces. *)
Fixpoint best_tracker (best : float) (scores : list (Z * float))
  : list ValEvent :=
  match scores with
  | [] => []
  | (e, v) :: rest =>
      if PrimFloat.ltb best v
      then Scored e v :: BestSaved :: best_tracker v rest
      else Scored e v :: best_tracker best rest
  end.

(** The phases of [fit]. *)
Inductive Phase : Set :=
| Started
| TrainingBegins
| TrainingScored (epoch : Z)
| ValidationBegins
| ValidationScored (epoch : Z)
| Reported (label : Label)
| BlankLine
| Checkpoint (path : string).

(** The best-model line and checkpoint of a validation epoch are not phases
    of their own ([val_event] shows them). *)
Definition phase (c : Call) : option Phase :=
  match c with
  | ModelTrain => Some TrainingBegins
  | ModelEval => Some ValidationBegins
  | AddScalar t _ e =>
      if String.eqb t "mIoU/train_miou" then Some (TrainingScored e)
      else if String.eqb t "mIoU/val_miou" then Some (ValidationScored e)
      else None
  | Print StartTraining => Some Started
  | Print (Report label _) => Some (Reported label)
  | Print Blank => Some BlankLine
  | Print BestModelSaved => None
  | TorchSave _ p =>
      if String.eqb p (best_path self) then None else Some (Checkpoint p)
  | _ => None
  end.

Definition phases (cs : list Call) : list Phase := filter_map phase cs.



(** *** Names for what the facts below speak of *)

(** The calls made inside the two batch loops. *)
Definition per_batch (c : Call) : bool :=
  match c with
  | ModelForward | Criterion | Backward | ZeroGrad | Step
  | MetricUpdate | MetricPrintScore | SetPostfix _ _ _ => true
  | AddScalar t _ _ =>
      String.eqb t "loss/train_loss" || String.eqb t "loss/val_loss"
  | _ => false
  end.

(** The batch indices [i, i+1, ...] of [n] successive batches. *)
Fixpoint enum_from (i : Z) (n : nat) : list Z :=
  match n with
  | O => []
  | S m => i :: enum_from (i + 1) m
  end.

(** The world the training loop starts in: [self.model.train()] and
    [self.metric.reset()] were called. *)
Definition entered_training (w : World) : World :=
  set_metric (metric_reset (metric w)) (set_training true w).

Definition batches : Z := Z.of_nat (List.length (train_loader self)).

(** The world the validation loop starts in: [self.model.eval()] and
    [self.metric.reset()] were called. *)
Definition entered_validation (w : World) : World :=
  set_metric (metric_reset (metric w)) (set_training false w).

(** What a batch yields in the world [w], which validation leaves as it is. *)
Definition batch_logits (w : World) (batch : Imgs * Segs) : Logits :=
  model_forward (training w) (params w) (fst batch).

Definition batch_loss_in (w : World) (batch : Imgs * Segs) : float :=
  criterion (batch_logits w batch) (snd batch).

Definition batch_preds_in (w : World) (batch : Imgs * Segs) : list Mask :=
  softmax_argmax (batch_logits w batch).

Definition batch_segs (batch : Imgs * Segs) : list Mask :=
  segs_numpy (snd batch).

Definition val_batches : Z := Z.of_nat (List.length (val_loader self)).

(** The score of a validation epoch entered in world [w]: [mean_iou_score]
    of the concatenated per-batch predictions and ground truths. *)
Definition epoch_val_iou (w : World) : float :=
  mean_iou_score
    (List.concat (map (batch_preds_in (entered_validation w)) (val_loader self)))
    (List.concat (map batch_segs (val_loader self))).

(** The per-batch losses of a validation epoch entered in world [w]. *)
Definition epoch_val_losses (w : World) : list float :=
  map (batch_loss_in (entered_validation w)) (val_loader self).

(** The best score after a run of validation scores. *)
Definition best_after (best : float) (scores : list (Z * float)) : float :=
  fold_left (fun b s => if PrimFloat.ltb b (snd s) then snd s else b)
            scores best.


End Observations.

(* ------------------------------------------------------------------ *)
(** ** Further observations *)

Section FurtherObservations.
Context {K : Collaborators}.


(** What [torch.save] was handed, in order: the state dict and the path. *)
Definition saved (cs : list Call) : list (Params * string) :=
  filter_map
    (fun c => match c with
              | TorchSave state_dict path => Some (state_dict, path)
              | _ => None
              end)
    cs.

(** The gradients [loss.backward()] leaves after the batch of index [idx]:
    accumulated onto the stored ones, which the first batch of a window
    zeroes beforehand. *)
Definition grads_after_batch (k idx : Z) (batch : Imgs * Segs) (w : World)
  : Grads :=
  loss_backward (training w) (params w) (fst batch) (snd batch)
                (if idx mod k =? 0 then zero_grad (grads w) else grads w).

(** The world the batch of index [idx] leaves, for a window of [k] batches:
    the gradients accumulated, an optimizer step on them when the batch
    closes a window, the running metric fed with the batch. *)
Definition after_batch (k idx : Z) (batch : Imgs * Segs) (w : World) : World :=
  set_metric
    (metric_update (batch_preds_in w batch) (batch_segs batch) (metric w))
    (if (idx + 1) mod k =? 0
     then set_optimized
            (step (opt_state w) (params w) (grads_after_batch k idx batch w))
            (set_grads (grads_after_batch k idx batch w) w)
     else set_grads (grads_after_batch k idx batch w) w).



End FurtherObservations.

(** Two values of a namespace are of the same kind when both are strings,
    both integers, both floats or both booleans. *)
Definition same_kind (a b : ArgParse.Value) : bool :=
  match a, b with
  | ArgParse.VStr _, ArgParse.VStr _
  | ArgParse.VInt _, ArgParse.VInt _
  | ArgParse.VFloat _, ArgParse.VFloat _
  | ArgParse.VBool _, ArgParse.VBool _ => true
  | _, _ => false
  end.

(** A namespace has the shape of another when it holds the same attributes
    in the same order, each with a value of the same kind. *)
Definition same_shape (ns ds : ArgParse.Namespace) : Prop :=
  Forall2 (fun x d => fst x = fst d /\ same_kind (snd x) (snd d) = true) ns ds.

(** A representative value of each declared type. *)
Definition sample (ty : ArgParse.ArgType) : ArgParse.Value :=
  match ty with
  | ArgParse.TStr => ArgParse.VStr EmptyString
  | ArgParse.TInt => ArgParse.VInt 0
  | ArgParse.TFloat => ArgParse.VFloat 0
  end.

(** The default of an option is of the option's declared type, and is found
    under the option's attribute. *)
Definition entry_ok (a : ArgParse.Argument) : bool :=
  match ArgParse.action a with
  | ArgParse.Help => true
  | ArgParse.Store ty =>
      match ArgParse.getattr (ArgParse.dest a)
                             (ArgParse.defaults ArgParse.parser) with
      | Some d => same_kind (sample ty) d
      | None => false
      end
  | ArgParse.StoreTrue =>
      match ArgParse.getattr (ArgParse.dest a)
                             (ArgParse.defaults ArgParse.parser) with
      | Some d => same_kind (ArgParse.VBool true) d
      | None => false
      end
  end.

(** An option that stores a value of type [ty]. *)
Definition stores (a : ArgParse.Argument) (ty : ArgParse.ArgType) : Prop :=
  In a ArgParse.parser /\ ArgParse.action a = ArgParse.Store ty.

(* ------------------------------------------------------------------ *)
(** ** A small concrete instance *)

Module Demo.

(** Images, labels and logits are numbers; the parameters count the
    optimizer steps taken, and the model predicts that count. *)
#[local] Instance counting : Collaborators := {|
  Imgs := nat;
  Segs := nat;
  Logits := nat;
  Mask := nat;
  Params := nat;
  Grads := nat;
  OptState := unit;
  MetricState := nat;
  model_forward := fun _ p _ => p;
  criterion := fun _ _ => 0.5%float;
  loss_backward := fun _ _ _ _ g => S g;
  zero_grad := fun _ => O;
  step := fun o p _ => (o, S p);
  softmax_argmax := fun l => [l];
  segs_numpy := fun s => [s];
  metric_name := "mIoU"%string;
  metric_reset := fun _ => O;
  metric_update := fun _ _ m => S m;
  metric_get_score := fun _ => 0.5%float;
  metric_print_score := fun _ => "0.5"%string;
  mean_iou_score := fun preds _ =>
    match preds with
    | [2%nat] => 0.10%float
    | [4%nat] => 0.25%float
    | [6%nat] => 0.20%float
    | _ => 0%float
    end
|}.

Definition fresh : World :=
  {| params := O; grads := O; opt_state := tt; training := false;
     metric := O |}.

(** The world after two optimizer steps, in training mode. *)
Definition stepped_twice : World :=
  {| params := 2%nat; grads := O; opt_state := tt; training := true;
     metric := 1%nat |}.

(** One batch per epoch, a step after every batch. *)
Definition single : Trainer :=
  {| accumulate_gradient := 1; train_loader := [(O, O)];
     val_loader := [(O, O)]; save_dir := "models" |}.

(** Four training batches, a step every second batch. *)
Definition paired : Trainer :=
  {| accumulate_gradient := 2;
     train_loader := [(O, O); (1%nat, O); (2%nat, O); (3%nat, O)];
     val_loader := [(O, O)]; save_dir := "models" |}.

(** Five training batches, a step every second batch: the last window is
    one batch short. *)
Definition ragged : Trainer :=
  {| accumulate_gradient := 2;
     train_loader := [(O, O); (1%nat, O); (2%nat, O); (3%nat, O); (4%nat, O)];
     val_loader := [(O, O)]; save_dir := "models" |}.


(** Decimal integers, for [int]; no string is read as a [float]. *)
Definition int_of_decimal (s : string) : option Z :=
  option_map Z.of_int (NilZero.int_of_string s).

Definition no_float (_ : string) : option float := None.

End Demo.

(** Further instances: trainers that cannot finish an epoch, and a scoring
    function that is undefined. *)
Module Demo2.

(** [accumulate_gradient = 0]. *)
Definition stalled : @Trainer Demo.counting :=
  @Build_Trainer Demo.counting 0 [(O, O)] [(O, O)] "models".

(** No training batch. *)
Definition starved : @Trainer Demo.counting :=
  @Build_Trainer Demo.counting 1 [] [(O, O)] "models".


(** Three training batches, a step every second batch: the third batch
    opens a window that is never closed. *)
Definition odd : @Trainer Demo.counting :=
  @Build_Trainer Demo.counting 2 [(O, O); (1%nat, O); (2%nat, O)] [(O, O)]
                 "models".

(** Two of the registered options. *)
Definition workers_option : ArgParse.Argument :=
  ArgParse.add_argument "--workers" (ArgParse.Store ArgParse.TInt)
                        (ArgParse.VInt 4).

Definition gpu_option : ArgParse.Argument :=
  ArgParse.add_argument "--gpu" (ArgParse.Store ArgParse.TInt)
                        (ArgParse.VInt 0).

(** As [Demo.counting], with a validation score that is not a number. *)
#[local] Instance undefined_score : Collaborators := {|
  Imgs := nat;
  Segs := nat;
  Logits := nat;
  Mask := nat;
  Params := nat;
  Grads := nat;
  OptState := unit;
  MetricState := nat;
  model_forward := fun _ p _ => p;
  criterion := fun _ _ => 0.5%float;
  loss_backward := fun _ _ _ _ g => S g;
  zero_grad := fun _ => O;
  step := fun o p _ => (o, S p);
  softmax_argmax := fun l => [l];
  segs_numpy := fun s => [s];
  metric_name := "mIoU"%string;
  metric_reset := fun _ => O;
  metric_update := fun _ _ m => S m;
  metric_get_score := fun _ => 0.5%float;
  metric_print_score := fun _ => "0.5"%string;
  mean_iou_score := fun _ _ => PrimFloat.nan
|}.

Definition unscored : @Trainer undefined_score :=
  {| accumulate_gradient := 1; train_loader := [(O, O)];
     val_loader := [(O, O)]; save_dir := "models" |}.

Definition unscored_world : @World undefined_score :=
  {| params := O; grads := O; opt_state := tt; training := false;
     metric := O |}.

(** As [Demo.counting], with a metric that calls itself [loss]. *)
#[local] Instance loss_named : Collaborators := {|
  Imgs := nat;
  Segs := nat;
  Logits := nat;
  Mask := nat;
  Params := nat;
  Grads := nat;
  OptState := unit;
  MetricState := nat;
  model_forward := fun _ p _ => p;
  criterion := fun _ _ => 0.5%float;
  loss_backward := fun _ _ _ _ g => S g;
  zero_grad := fun _ => O;
  step := fun o p _ => (o, S p);
  softmax_argmax := fun l => [l];
  segs_numpy := fun s => [s];
  metric_name := "loss"%string;
  metric_reset := fun _ => O;
  metric_update := fun _ _ m => S m;
  metric_get_score := fun _ => 0.5%float;
  metric_print_score := fun _ => "0.5"%string;
  mean_iou_score := fun _ _ => 0.5%float
|}.

(** Two training batches, a step after every batch. *)
Definition clashing : @Trainer loss_named :=
  {| accumulate_gradient := 1; train_loader := [(O, O); (1%nat, O)];
     val_loader := [(O, O)]; save_dir := "models" |}.

Definition clashing_world : @World loss_named :=
  {| params := O; grads := O; opt_state := tt; training := false;
     metric := O |}.

End Demo2.

(* ------------------------------------------------------------------ *)
(** ** Facts about methods and loops *)

Section MethodFacts.
Context {W C : Type}.

Lemma bind_Ret {A B} (m : @M W C A) (k : A -> @M W C B) w a w1 cs1 :
  m w = (Ret a, w1, cs1) ->
  bind m k w = prepend cs1 (k a w1).
Proof.
  intros E. unfold bind, prepend. rewrite E.
  destruct (k a w1) as [[r w2] cs2]. reflexivity.
Qed.

Lemma bind_Raise {A B} (m : @M W C A) (k : A -> @M W C B) w e w1 cs1 :
  m w = (Raise e, w1, cs1) ->
  bind m k w = (Raise e, w1, cs1).
Proof. intros E. unfold bind. rewrite E. reflexivity. Qed.

Lemma prepend_nil {A} (x : res A * W * list C) : prepend [] x = x.
Proof. destruct x as [[r w] cs]. reflexivity. Qed.

Lemma bind_ret {A B} (a : A) (k : A -> @M W C B) w :
  bind (ret a) k w = k a w.
Proof. rewrite (bind_Ret _ _ _ a w []); [apply prepend_nil | reflexivity]. Qed.

Lemma bind_eval_Ret {A B} (a : A) (k : A -> @M W C B) w :
  bind (eval (Ret a)) k w = k a w.
Proof. rewrite (bind_Ret _ _ _ a w []); [apply prepend_nil | reflexivity]. Qed.

Lemma bind_eval_Raise {A B} (e : exn) (k : A -> @M W C B) w :
  bind (eval (Raise e)) k w = (Raise e, w, []).
Proof. apply bind_Raise. reflexivity. Qed.

Lemma bind_call {A B} (c : C) upd (value : W -> A) (k : A -> @M W C B) w :
  bind (call c upd value) k w = prepend [c] (k (value w) (upd w)).
Proof. apply bind_Ret. reflexivity. Qed.

Lemma run_eta {A} (x : res A * W * list C) :
  x = (outcome x, world x, calls x).
Proof. destruct x as [[r w] cs]. reflexivity. Qed.

End MethodFacts.

Lemma filter_map_app {A B} (f : A -> option B) (l1 l2 : list A) :
  filter_map f (l1 ++ l2) = filter_map f l1 ++ filter_map f l2.
Proof.
  induction l1 as [|x l1 IH]; simpl; [reflexivity|].
  destruct (f x); simpl; rewrite IH; reflexivity.
Qed.

Lemma filter_map_none {A B} (f : A -> option B) (l : list A) :
  Forall (fun x => f x = None) l -> filter_map f l = [].
Proof.
  induction 1 as [|x l Hx _ IH]; simpl; [reflexivity|].
  rewrite Hx. exact IH.
Qed.

(** *** Python arithmetic *)

Lemma mod_nonzero a b : b <> 0 -> Py.mod_ a b = Ret (a mod b).
Proof.
  intros H. unfold Py.mod_. apply Z.eqb_neq in H. rewrite H. reflexivity.
Qed.

Lemma truediv_nonzero x n :
  n <> 0 -> Py.truediv x n = Ret (PrimFloat.div x (Py.float_of_int n)).
Proof.
  intros H. unfold Py.truediv. apply Z.eqb_neq in H. rewrite H. reflexivity.
Qed.



(** *** Paths *)

Lemma append_cancel_l (p x y : string) :
  (p ++ x)%string = (p ++ y)%string -> x = y.
Proof.
  induction p as [|c p IH]; simpl; intros H; [exact H|].
  injection H as H. exact (IH H).
Qed.

Lemma append_assoc (a b c : string) :
  ((a ++ b) ++ c)%string = (a ++ b ++ c)%string.
Proof.
  induction a as [|x a IH]; simpl; [reflexivity|].
  rewrite IH. reflexivity.
Qed.

Lemma str_of_int_not_best (z : Z) (rest : string) :
  (Py.str_of_int z ++ rest)%string <> "best.pth.tar"%string.
Proof.
  unfold Py.str_of_int.
  destruct (Z.to_int z) as [d|d]; simpl.
  - destruct d; simpl; discriminate.
  - discriminate.
Qed.

(* ------------------------------------------------------------------ *)
(** ** Facts about the trainer *)

Section TrainerFacts.
Context {K : Collaborators}.
Variable self : Trainer.

Lemma epoch_path_not_best (epoch : Z) :
  String.eqb (epoch_path self epoch) (best_path self) = false.
Proof.
  apply String.eqb_neq. unfold epoch_path, best_path, Py.path_join.
  cbn [Py.starts_with_slash append Ascii.eqb Bool.eqb].
  set (tail := (Py.str_of_int epoch ++ ".pth.tar")%string).
  assert (forall p : string,
             (p ++ "model_" ++ tail)%string
             <> (p ++ "model_best.pth.tar")%string) as Hp.
  { intros p H. apply append_cancel_l in H. cbn in H.
    injection H as H. exact (str_of_int_not_best _ _ H). }
  destruct (match save_dir self with
            | EmptyString => true
            | String _ _ => Py.ends_with_slash (save_dir self)
            end).
  - apply Hp.
  - intros H.
    apply (Hp (save_dir self ++ "/")%string).
    rewrite !append_assoc. exact H.
Qed.

Lemma per_batch_loss_tag (t : string) :
  String.eqb t "loss/train_loss" || String.eqb t "loss/val_loss" = true ->
  t = "loss/train_loss"%string \/ t = "loss/val_loss"%string.
Proof.
  intros H. apply orb_true_iff in H.
  destruct H as [H|H]; apply String.eqb_eq in H; auto.
Qed.

Lemma per_batch_val_event c : per_batch c = true -> val_event self c = None.
Proof.
  destruct c; simpl; try discriminate; try reflexivity.
  intros H. destruct (per_batch_loss_tag _ H); subst; reflexivity.
Qed.

Lemma per_batch_phase c : per_batch c = true -> phase self c = None.
Proof.
  destruct c; simpl; try discriminate; try reflexivity.
  intros H. destruct (per_batch_loss_tag _ H); subst; reflexivity.
Qed.

Lemma per_batch_val_events cs :
  Forall (fun c => per_batch c = true) cs -> val_events self cs = [].
Proof.
  intros H. apply filter_map_none.
  eapply Forall_impl; [|exact H]. exact per_batch_val_event.
Qed.

Lemma per_batch_val_scores cs :
  Forall (fun c => per_batch c = true) cs -> val_scores self cs = [].
Proof.
  intros H. apply filter_map_none.
  eapply Forall_impl; [|exact H].
  intros c Hc. rewrite (per_batch_val_event c Hc). reflexivity.
Qed.

Lemma per_batch_phases cs :
  Forall (fun c => per_batch c = true) cs -> phases self cs = [].
Proof.
  intros H. apply filter_map_none.
  eapply Forall_impl; [|exact H]. exact per_batch_phase.
Qed.

Lemma count_app p (cs1 cs2 : list Call) :
  count p (cs1 ++ cs2) = (count p cs1 + count p cs2)%nat.
Proof. unfold count. rewrite filter_app, length_app. reflexivity. Qed.

Lemma count_none p (cs : list Call) :
  Forall (fun c => p c = false) cs -> count p cs = 0%nat.
Proof.
  unfold count. induction 1 as [|c cs' Hc _ IH]; [reflexivity|].
  cbn [filter]. rewrite Hc. exact IH.
Qed.

Lemma logged_app tag (cs1 cs2 : list Call) :
  logged tag (cs1 ++ cs2) = logged tag cs1 ++ logged tag cs2.
Proof. apply filter_map_app. Qed.

(** *** The training loop *)

Let k := accumulate_gradient self.

(** The body of the training loop, when [accumulate_gradient] is not zero
    and the metric is not named [loss]. *)
Lemma train_batch_spec idx batch l w :
  metric_name <> "loss"%string -> k <> 0 -> 0 <= idx ->
  exists l' w' cs,
    train_batch self idx batch l w = (Ret l', w', cs)
    /\ loc_idx l' = Some idx
    /\ loc_iters l' = loc_iters l + 1
    /\ loc_batch_loss l'
       = fold_left PrimFloat.add (logged "loss/train_loss" cs) (loc_batch_loss l)
    /\ Forall (fun c => per_batch c = true) cs
    /\ count is_zero_grad cs = (if idx mod k =? 0 then 1%nat else 0%nat)
    /\ count is_step cs = (if (idx + 1) mod k =? 0 then 1%nat else 0%nat).
Proof.
  intros Hm Hk Hidx. destruct batch as [imgs segs].
  unfold train_batch, bind, model_call, criterion_call, optimizer_zero_grad,
    loss_backward_call, optimizer_step, metric_update_call, writer_add_scalar,
    metric_print_score_call, trange_set_postfix, call, eval, ret.
  fold k. rewrite (proj2 (String.eqb_neq _ _) Hm).
  rewrite (mod_nonzero idx k Hk), (mod_nonzero (idx + 1) k Hk).
  rewrite (truediv_nonzero _ (idx + 1)) by lia.
  destruct (idx mod k =? 0), ((idx + 1) mod k =? 0); cbn;
    do 3 eexists; repeat split; repeat constructor.
Qed.


Lemma train_loop_spec xs : forall i l w,
  metric_name <> "loss"%string -> k <> 0 -> 0 <= i ->
  exists l' w' cs,
    for_enumerate (train_batch self) i xs l w = (Ret l', w', cs)
    /\ loc_idx l'
       = match xs with
         | [] => loc_idx l
         | _ => Some (i + Z.of_nat (List.length xs) - 1)
         end
    /\ loc_iters l' = loc_iters l + Z.of_nat (List.length xs)
    /\ loc_batch_loss l'
       = fold_left PrimFloat.add (logged "loss/train_loss" cs) (loc_batch_loss l)
    /\ Forall (fun c => per_batch c = true) cs
    /\ count is_zero_grad cs
       = List.length (filter (fun j => j mod k =? 0)
                             (enum_from i (List.length xs)))
    /\ count is_step cs
       = List.length (filter (fun j => (j + 1) mod k =? 0)
                             (enum_from i (List.length xs))).
Proof.
  induction xs as [|x rest IH]; intros i l w Hm Hk Hi.
  - exists l, w, []. cbn. rewrite Z.add_0_r. repeat split; constructor.
  - destruct (train_batch_spec i x l w Hm Hk Hi)
      as (l1 & w1 & cs1 & E1 & I1 & T1 & B1 & P1 & Z1 & S1).
    destruct (IH (i + 1) l1 w1 Hm Hk ltac:(lia))
      as (l2 & w2 & cs2 & E2 & I2 & T2 & B2 & P2 & Z2 & S2).
    exists l2, w2, (cs1 ++ cs2).
    cbn [for_enumerate]. rewrite (bind_Ret _ _ _ _ _ _ E1), E2.
    cbn [prepend outcome world calls fst snd].
    split; [reflexivity|].
    split.
    { rewrite I2. destruct rest; [rewrite I1|]; f_equal; cbn [List.length]; lia. }
    split.
    { rewrite T2, T1. cbn [List.length]. lia. }
    split.
    { rewrite logged_app, fold_left_app, <- B1. exact B2. }
    split.
    { apply Forall_app. split; assumption. }
    rewrite !count_app, Z1, Z2, S1, S2.
    cbn [List.length enum_from filter].
    split.
    + destruct (i mod k =? 0); reflexivity.
    + destruct ((i + 1) mod k =? 0); reflexivity.
Qed.

Lemma train_loop_returns iters w :
  metric_name <> "loss"%string -> k <> 0 -> train_loader self <> [] ->
  exists l' w',
    train_loop self iters w = (Ret l', w', calls (train_loop self iters w))
    /\ loc_idx l' = Some (batches self - 1)
    /\ loc_iters l' = iters + (batches self)
    /\ loc_batch_loss l'
       = fsum (logged "loss/train_loss" (calls (train_loop self iters w)))
    /\ Forall (fun c => per_batch c = true) (calls (train_loop self iters w)).
Proof.
  intros Hm Hk Hne. unfold train_loop, batches.
  destruct (train_loop_spec (train_loader self) 0
              {| loc_idx := None; loc_iters := iters; loc_batch_loss := 0 |}
              w Hm Hk ltac:(lia))
    as (l' & w' & cs & E & I & T & B & P & _).
  rewrite E. exists l', w'. cbn [calls snd].
  repeat split; try assumption.
  rewrite I. destruct (train_loader self); [congruence|].
  rewrite Z.add_0_l. reflexivity.
Qed.

Lemma batches_positive : train_loader self <> [] -> 1 <= (batches self).
Proof.
  unfold batches. destruct (train_loader self); [congruence|].
  cbn [List.length]. lia.
Qed.

(** [_run_one_epoch] on a loader with at least one batch, a non-zero
    [accumulate_gradient] and a metric not named [loss]. *)
Lemma run_one_epoch_spec epoch iters w :
  metric_name <> "loss"%string -> k <> 0 -> train_loader self <> [] ->
  exists score w',
    _run_one_epoch self epoch iters w
    = (Ret (PrimFloat.div
              (fsum (logged "loss/train_loss"
                            (calls (train_loop self iters (entered_training w)))))
              (Py.float_of_int (batches self)),
            score, iters + (batches self)),
       w',
       [ModelTrain; MetricReset]
       ++ calls (train_loop self iters (entered_training w))
       ++ (if (batches self - 1) mod 4 =? 0 then [Step; ZeroGrad] else [])
       ++ [MetricGetScore; AddScalar "mIoU/train_miou" score epoch;
           MetricGetScore]).
Proof.
  intros Hm Hk Hne.
  destruct (train_loop_returns iters (entered_training w) Hm Hk Hne)
    as (l' & w' & E & I & T & B & _).
  pose proof (batches_positive Hne) as Hpos.
  unfold _run_one_epoch, model_train, metric_reset_call.
  rewrite !bind_call. cbn [metric set_training].
  fold (entered_training w).
  rewrite (bind_Ret _ _ _ _ _ _ E), I.
  unfold read_idx. rewrite bind_eval_Ret.
  unfold trailing_step at 1. rewrite (mod_nonzero (batches self - 1) 4) by lia.
  rewrite truediv_nonzero by lia.
  replace (batches self - 1 + 1) with (batches self) by lia.
  rewrite B, T.
  unfold bind, optimizer_step, optimizer_zero_grad, metric_get_score_call,
    writer_add_scalar, call, eval, ret.
  destruct ((batches self - 1) mod 4 =? 0); cbn; do 2 eexists; reflexivity.
Qed.

Lemma run_one_epoch_empty epoch iters w :
  train_loader self = [] ->
  _run_one_epoch self epoch iters w
  = (Raise UnboundLocalError, entered_training w, [ModelTrain; MetricReset]).
Proof.
  intros E.
  unfold _run_one_epoch, model_train, metric_reset_call, train_loop.
  rewrite !bind_call, E. cbn [for_enumerate].
  rewrite bind_ret. unfold read_idx. cbn [loc_idx]. rewrite bind_eval_Raise.
  reflexivity.
Qed.

Lemma run_one_epoch_zero epoch iters w :
  k = 0 -> train_loader self <> [] ->
  _run_one_epoch self epoch iters w
  = (Raise ZeroDivisionError, entered_training w,
     [ModelTrain; MetricReset; ModelForward; Criterion]).
Proof.
  intros Hk Hne.
  unfold _run_one_epoch, model_train, metric_reset_call, train_loop.
  rewrite !bind_call.
  destruct (train_loader self) as [|[imgs segs] rest]; [congruence|].
  cbn [for_enumerate].
  unfold train_batch, model_call, criterion_call. fold k. rewrite Hk.
  unfold bind, call, eval, Py.mod_. cbn. reflexivity.
Qed.

(** The world a batch leaves and the loss it logs do not depend on how the
    call of [set_postfix] ends. *)
Lemma train_batch_after idx batch l w :
  k <> 0 -> 0 <= idx ->
  world (train_batch self idx batch l w) = after_batch k idx batch w
  /\ logged "loss/train_loss" (calls (train_batch self idx batch l w))
     = [batch_loss_in w batch].
Proof.
  intros Hk Hidx. destruct batch as [imgs segs].
  unfold train_batch, bind, model_call, criterion_call, optimizer_zero_grad,
    loss_backward_call, optimizer_step, metric_update_call, writer_add_scalar,
    metric_print_score_call, trange_set_postfix, call, eval, ret.
  fold k.
  rewrite (mod_nonzero idx k Hk), (mod_nonzero (idx + 1) k Hk).
  rewrite (truediv_nonzero _ (idx + 1)) by lia.
  unfold after_batch, grads_after_batch, batch_loss_in, batch_preds_in,
    batch_segs, batch_logits.
  destruct (String.eqb metric_name "loss"), (idx mod k =? 0),
    ((idx + 1) mod k =? 0); split; reflexivity.
Qed.



(** A metric named [loss]: the batch does all its work and then raises at
    [set_postfix], which is never entered. *)
Lemma train_batch_clash idx batch l w :
  metric_name = "loss"%string -> k <> 0 -> 0 <= idx ->
  exists cs,
    train_batch self idx batch l w
    = (Raise TypeError, after_batch k idx batch w, cs)
    /\ Forall (fun c => per_batch c = true) cs
    /\ count is_zero_grad cs = (if idx mod k =? 0 then 1%nat else 0%nat)
    /\ count is_step cs = (if (idx + 1) mod k =? 0 then 1%nat else 0%nat).
Proof.
  intros Hm Hk Hidx. destruct batch as [imgs segs].
  unfold train_batch, bind, model_call, criterion_call, optimizer_zero_grad,
    loss_backward_call, optimizer_step, metric_update_call, writer_add_scalar,
    metric_print_score_call, trange_set_postfix, call, eval, ret.
  fold k. rewrite (proj2 (String.eqb_eq _ _) Hm).
  rewrite (mod_nonzero idx k Hk), (mod_nonzero (idx + 1) k Hk).
  rewrite (truediv_nonzero _ (idx + 1)) by lia.
  unfold after_batch, grads_after_batch, batch_preds_in, batch_segs,
    batch_logits.
  destruct (idx mod k =? 0), ((idx + 1) mod k =? 0); cbn;
    eexists; (split; [reflexivity|]); repeat split; repeat constructor.
Qed.

Lemma run_one_epoch_clash epoch iters w b rest :
  metric_name = "loss"%string -> k <> 0 -> train_loader self = b :: rest ->
  _run_one_epoch self epoch iters w
  = (Raise TypeError, after_batch k 0 b (entered_training w),
     [ModelTrain; MetricReset]
     ++ calls (train_batch self 0 b
                 {| loc_idx := None; loc_iters := iters; loc_batch_loss := 0 |}
                 (entered_training w)))
  /\ Forall (fun c => per_batch c = true)
            (calls (train_batch self 0 b
                      {| loc_idx := None; loc_iters := iters;
                         loc_batch_loss := 0 |}
                      (entered_training w))).
Proof.
  intros Hm Hk El.
  destruct (train_batch_clash 0 b
              {| loc_idx := None; loc_iters := iters; loc_batch_loss := 0 |}
              (entered_training w) Hm Hk ltac:(lia)) as (cs & E & P & _).
  rewrite E. cbn [calls snd]. split; [|exact P].
  unfold _run_one_epoch, model_train, metric_reset_call, train_loop.
  rewrite !bind_call, El. cbn [for_enumerate metric set_training].
  fold (entered_training w).
  rewrite (bind_Raise _ _ _ _ _ _ (bind_Raise _ _ _ _ _ _ E)).
  reflexivity.
Qed.

(** *** The validation loop *)

Lemma eval_batch_spec idx batch l w :
  eval_batch idx batch l w
  = (Ret {| ev_idx := Some idx; ev_iters := ev_iters l + 1;
            ev_batch_loss := PrimFloat.add (ev_batch_loss l) (batch_loss_in w batch);
            val_preds := val_preds l ++ [batch_preds_in w batch];
            val_segs := val_segs l ++ [batch_segs batch] |},
     w,
     [ModelForward; Criterion;
      AddScalar "loss/val_loss" (batch_loss_in w batch) (ev_iters l + 1)]).
Proof. destruct batch as [imgs segs]. reflexivity. Qed.

Lemma eval_loop_spec xs : forall i l w,
  exists l' cs,
    for_enumerate eval_batch i xs l w = (Ret l', w, cs)
    /\ ev_idx l'
       = match xs with
         | [] => ev_idx l
         | _ => Some (i + Z.of_nat (List.length xs) - 1)
         end
    /\ ev_iters l' = ev_iters l + Z.of_nat (List.length xs)
    /\ ev_batch_loss l'
       = fold_left PrimFloat.add (map (batch_loss_in w) xs) (ev_batch_loss l)
    /\ val_preds l' = val_preds l ++ map (batch_preds_in w) xs
    /\ val_segs l' = val_segs l ++ map batch_segs xs
    /\ logged "loss/val_loss" cs = map (batch_loss_in w) xs
    /\ Forall (fun c => per_batch c = true) cs
    /\ Forall (fun c => is_update c = false) cs
    /\ Forall (fun c => is_mean_iou_score c = false) cs
    /\ Forall (fun c => is_metric_read c = false) cs.
Proof.
  induction xs as [|x rest IH]; intros i l w.
  - exists l, []. cbn. rewrite Z.add_0_r, !app_nil_r.
    repeat split; constructor.
  - destruct (IH (i + 1)
                {| ev_idx := Some i; ev_iters := ev_iters l + 1;
                   ev_batch_loss := PrimFloat.add (ev_batch_loss l)
                                                  (batch_loss_in w x);
                   val_preds := val_preds l ++ [batch_preds_in w x];
                   val_segs := val_segs l ++ [batch_segs x] |} w)
      as (l2 & cs2 & E2 & I2 & T2 & B2 & VP & VS & L2 & P2 & U2 & M2 & R2).
    cbn [ev_idx ev_iters ev_batch_loss val_preds val_segs] in *.
    exists l2, ([ModelForward; Criterion;
                 AddScalar "loss/val_loss" (batch_loss_in w x) (ev_iters l + 1)]
                ++ cs2).
    cbn [for_enumerate].
    rewrite (bind_Ret _ _ _ _ _ _ (eval_batch_spec i x l w)), E2.
    cbn [prepend outcome world calls fst snd].
    split; [reflexivity|].
    split.
    { rewrite I2. destruct rest; f_equal; cbn [List.length]; lia. }
    split.
    { rewrite T2. cbn [List.length]. lia. }
    split; [exact B2|].
    split; [rewrite VP, <- app_assoc; reflexivity|].
    split; [rewrite VS, <- app_assoc; reflexivity|].
    split; [rewrite logged_app, L2; reflexivity|].
    repeat split; apply Forall_app; split; try assumption;
      repeat constructor.
Qed.

Lemma eval_one_epoch_empty epoch iters best_iou w :
  val_loader self = [] ->
  _eval_one_epoch self epoch iters best_iou w
  = (Raise ValueError, entered_validation w, [ModelEval; MetricReset]).
Proof.
  intros E.
  unfold _eval_one_epoch, model_eval, metric_reset_call, eval_loop.
  rewrite !bind_call, E. cbn [for_enumerate].
  rewrite bind_ret. cbn [val_preds Py.np_concatenate].
  rewrite bind_eval_Raise. reflexivity.
Qed.

(** [_eval_one_epoch] on a loader with at least one batch. *)
Lemma eval_one_epoch_spec epoch iters best_iou w :
  val_loader self <> [] ->
  exists cs,
    _eval_one_epoch self epoch iters best_iou w
    = (Ret (PrimFloat.div (fsum (epoch_val_losses self w))
                          (Py.float_of_int (val_batches self)),
            (epoch_val_iou self) w,
            iters + (val_batches self),
            if PrimFloat.ltb best_iou (epoch_val_iou self w)
            then (epoch_val_iou self) w else best_iou),
       entered_validation w,
       [ModelEval; MetricReset] ++ cs
       ++ [MeanIouScore; AddScalar "mIoU/val_miou" (epoch_val_iou self w) epoch]
       ++ (if PrimFloat.ltb best_iou (epoch_val_iou self w)
           then [Print BestModelSaved; TorchSave (params w) (best_path self)]
           else []))
    /\ logged "loss/val_loss" cs = (epoch_val_losses self) w
    /\ Forall (fun c => per_batch c = true) cs
    /\ Forall (fun c => is_update c = false) cs
    /\ Forall (fun c => is_mean_iou_score c = false) cs
    /\ Forall (fun c => is_metric_read c = false) cs.
Proof.
  intros Hne.
  destruct (eval_loop_spec (val_loader self) 0
              {| ev_idx := None; ev_iters := iters; ev_batch_loss := 0;
                 val_preds := []; val_segs := [] |}
              (entered_validation w))
    as (l' & cs & E & I & T & B & VP & VS & L & P & U & Mi & Rd).
  cbn [ev_idx ev_iters ev_batch_loss val_preds val_segs app] in *.
  exists cs. split; [|repeat split; assumption].
  assert (ev_idx l' = Some (val_batches self - 1)) as I'.
  { rewrite I. unfold val_batches.
    destruct (val_loader self); [congruence|]. rewrite Z.add_0_l. reflexivity. }
  assert (1 <= (val_batches self)) as Hpos.
  { unfold val_batches. destruct (val_loader self); [congruence|].
    cbn [List.length]. lia. }
  assert (Py.np_concatenate (val_preds l')
          = Ret (List.concat (map (batch_preds_in (entered_validation w))
                                  (val_loader self)))) as CP.
  { rewrite VP. destruct (val_loader self); [congruence|]. reflexivity. }
  assert (Py.np_concatenate (val_segs l')
          = Ret (List.concat (map batch_segs (val_loader self)))) as CS.
  { rewrite VS. destruct (val_loader self); [congruence|]. reflexivity. }
  unfold _eval_one_epoch, model_eval, metric_reset_call, eval_loop.
  rewrite !bind_call. cbn [metric set_training].
  fold (entered_validation w).
  rewrite (bind_Ret _ _ _ _ _ _ E), CP, CS, !bind_eval_Ret.
  unfold mean_iou_score_call, writer_add_scalar. rewrite !bind_call.
  fold (epoch_val_iou self w).
  rewrite I', T, B. fold (epoch_val_losses self w). fold (fsum (epoch_val_losses self w)).
  fold (val_batches self).
  unfold read_idx.
  destruct (PrimFloat.ltb best_iou (epoch_val_iou self w)).
  - unfold print, save, call, ret, eval, bind.
    rewrite truediv_nonzero by lia.
    replace (val_batches self - 1 + 1) with (val_batches self) by lia.
    cbn. reflexivity.
  - rewrite bind_ret, bind_eval_Ret.
    rewrite truediv_nonzero by lia.
    replace (val_batches self - 1 + 1) with (val_batches self) by lia.
    cbn. reflexivity.
Qed.

(** *** One epoch of [fit] *)

Lemma fit_epoch_train_raises epoch iters val_iters best_iou w e w1 cs1 :
  _run_one_epoch self epoch iters w = (Raise e, w1, cs1) ->
  fit_epoch self epoch (iters, val_iters, best_iou) w = (Raise e, w1, cs1).
Proof. intros E. unfold fit_epoch. apply bind_Raise. exact E. Qed.

Lemma fit_epoch_eval_raises epoch iters val_iters best_iou w r1 w1 cs1 e w2 cs2 :
  _run_one_epoch self epoch iters w = (Ret r1, w1, cs1) ->
  _eval_one_epoch self epoch val_iters best_iou w1 = (Raise e, w2, cs2) ->
  fit_epoch self epoch (iters, val_iters, best_iou) w
  = (Raise e, w2, cs1 ++ cs2).
Proof.
  intros E1 E2. unfold fit_epoch.
  rewrite (bind_Ret _ _ _ _ _ _ E1).
  destruct r1 as [[train_loss train_iou] iters'].
  rewrite (bind_Raise _ _ _ _ _ _ E2). reflexivity.
Qed.

Lemma fit_epoch_returns epoch iters val_iters best_iou w
      train_loss train_iou iters' w1 cs1
      val_loss val_iou val_iters' best_iou' w2 cs2 :
  _run_one_epoch self epoch iters w
  = (Ret (train_loss, train_iou, iters'), w1, cs1) ->
  _eval_one_epoch self epoch val_iters best_iou w1
  = (Ret (val_loss, val_iou, val_iters', best_iou'), w2, cs2) ->
  fit_epoch self epoch (iters, val_iters, best_iou) w
  = (Ret (iters', val_iters', best_iou'), w2,
     cs1 ++ cs2
     ++ [Print (Report TrainLoss train_loss);
         Print (Report TrainMeanIOU train_iou);
         Print (Report ValidLoss val_loss);
         Print (Report ValidMeanIOU val_iou);
         Print Blank;
         TorchSave (params w2) (epoch_path self epoch)]).
Proof.
  intros E1 E2. unfold fit_epoch.
  rewrite (bind_Ret _ _ _ _ _ _ E1), (bind_Ret _ _ _ _ _ _ E2).
  unfold print, save. rewrite !bind_call.
  unfold bind, ret. cbn. reflexivity.
Qed.

(** A training epoch neither logs a validation score nor saves a model. *)
Lemma run_one_epoch_no_val_event epoch iters w :
  Forall (fun c => val_event self c = None)
         (calls (_run_one_epoch self epoch iters w)).
Proof.
  destruct (train_loader self) as [|b rest] eqn:El.
  - rewrite (run_one_epoch_empty _ _ _ El). repeat constructor.
  - assert (train_loader self <> []) as Hne by congruence.
    destruct (Z.eq_dec k 0) as [Hk|Hk].
    + rewrite (run_one_epoch_zero _ _ _ Hk Hne). repeat constructor.
    + destruct (string_dec metric_name "loss") as [Hm|Hm].
      * destruct (run_one_epoch_clash epoch iters w b rest Hm Hk El)
          as (E & P).
        rewrite E. cbn [calls snd].
        apply Forall_app. split; [repeat constructor|].
        eapply Forall_impl; [|exact P]. exact per_batch_val_event.
      * destruct (run_one_epoch_spec epoch iters w Hm Hk Hne)
          as (score & w' & E).
        destruct (train_loop_returns iters (entered_training w) Hm Hk Hne)
          as (_ & _ & _ & _ & _ & _ & P).
        rewrite E. cbn [calls snd].
        repeat (apply Forall_app; split).
        -- repeat constructor.
        -- eapply Forall_impl; [|exact P]. exact per_batch_val_event.
        -- destruct ((batches self - 1) mod 4 =? 0); repeat constructor.
        -- repeat constructor.
Qed.

Lemma best_tracker_app scores1 : forall best scores2,
  best_tracker best (scores1 ++ scores2)
  = best_tracker best scores1
    ++ best_tracker (best_after best scores1) scores2.
Proof.
  induction scores1 as [|[e v] rest IH]; intros best scores2.
  - reflexivity.
  - cbn [app best_tracker best_after fold_left snd].
    destruct (PrimFloat.ltb best v); rewrite IH; reflexivity.
Qed.

Lemma val_events_app cs1 cs2 :
  val_events self (cs1 ++ cs2) = val_events self cs1 ++ val_events self cs2.
Proof. apply filter_map_app. Qed.

Lemma val_scores_app cs1 cs2 :
  val_scores self (cs1 ++ cs2) = val_scores self cs1 ++ val_scores self cs2.
Proof. apply filter_map_app. Qed.

Lemma no_val_event_events cs :
  Forall (fun c => val_event self c = None) cs -> val_events self cs = [].
Proof. apply filter_map_none. Qed.

Lemma no_val_event_scores cs :
  Forall (fun c => val_event self c = None) cs -> val_scores self cs = [].
Proof.
  intros H. apply filter_map_none.
  eapply Forall_impl; [|exact H].
  intros c Hc. rewrite Hc. reflexivity.
Qed.

(** What a validation epoch shows of scores and best-model checkpoints. *)
Lemma eval_one_epoch_val_events epoch iters best_iou w :
  (exists e w' cs,
      _eval_one_epoch self epoch iters best_iou w = (Raise e, w', cs)
      /\ Forall (fun c => val_event self c = None) cs)
  \/ (exists loss v iters' w' cs,
         _eval_one_epoch self epoch iters best_iou w
         = (Ret (loss, v, iters',
                 if PrimFloat.ltb best_iou v then v else best_iou), w', cs)
         /\ val_events self cs
            = Scored epoch v
              :: (if PrimFloat.ltb best_iou v then [BestSaved] else [])
         /\ val_scores self cs = [(epoch, v)]).
Proof.
  destruct (val_loader self) as [|b rest] eqn:El.
  - left. rewrite (eval_one_epoch_empty _ _ _ _ El).
    do 3 eexists. split; [reflexivity|]. repeat constructor.
  - right.
    assert (val_loader self <> []) as Hne by congruence.
    destruct (eval_one_epoch_spec epoch iters best_iou w Hne)
      as (cs & E & _ & P & _).
    rewrite E. do 5 eexists. split; [reflexivity|].
    unfold val_events, val_scores. rewrite !filter_map_app.
    fold (val_events self cs). fold (val_scores self cs).
    rewrite (per_batch_val_events cs P), (per_batch_val_scores cs P).
    destruct (PrimFloat.ltb best_iou (epoch_val_iou self w));
      cbn; rewrite ?String.eqb_refl; split; reflexivity.
Qed.

Lemma summary_no_val_event epoch (a b c d : float) (p : Params) :
  Forall (fun c => val_event self c = None)
         [Print (Report TrainLoss a); Print (Report TrainMeanIOU b);
          Print (Report ValidLoss c); Print (Report ValidMeanIOU d);
          Print Blank; TorchSave p (epoch_path self epoch)].
Proof.
  repeat constructor. unfold val_event. rewrite epoch_path_not_best. reflexivity.
Qed.

(** One epoch of [fit] follows the tracker, and hands on its best score. *)
Lemma fit_epoch_tracks epoch iters val_iters best_iou w :
  val_events self (calls (fit_epoch self epoch (iters, val_iters, best_iou) w))
  = best_tracker best_iou
      (val_scores self
         (calls (fit_epoch self epoch (iters, val_iters, best_iou) w)))
  /\ forall iters' val_iters' best_iou',
      outcome (fit_epoch self epoch (iters, val_iters, best_iou) w)
      = Ret (iters', val_iters', best_iou') ->
      best_iou'
      = best_after best_iou
          (val_scores self
             (calls (fit_epoch self epoch (iters, val_iters, best_iou) w))).
Proof.
  pose proof (run_one_epoch_no_val_event epoch iters w) as Q.
  destruct (_run_one_epoch self epoch iters w) as [[[r1|e1] w1] cs1] eqn:E1;
    cbn [calls snd] in Q.
  2:{ rewrite (fit_epoch_train_raises _ _ _ _ _ _ _ _ E1).
      cbn [calls outcome fst snd].
      rewrite (no_val_event_events _ Q), (no_val_event_scores _ Q).
      split; [reflexivity | discriminate]. }
  destruct r1 as [[train_loss train_iou] iters1].
  destruct (eval_one_epoch_val_events epoch val_iters best_iou w1)
    as [(e & w2 & cs2 & E2 & Q2) | (loss & v & it' & w2 & cs2 & E2 & Ev & Sc)].
  - rewrite (fit_epoch_eval_raises _ _ _ _ _ _ _ _ _ _ _ E1 E2).
    cbn [calls outcome fst snd].
    rewrite val_events_app, val_scores_app.
    rewrite (no_val_event_events _ Q), (no_val_event_scores _ Q).
    rewrite (no_val_event_events _ Q2), (no_val_event_scores _ Q2).
    split; [reflexivity | discriminate].
  - rewrite (fit_epoch_returns _ _ _ _ _ _ _ _ _ _ _ _ _ _ _ _ E1 E2).
    cbn [calls outcome fst snd].
    rewrite !val_events_app, !val_scores_app.
    rewrite (no_val_event_events _ Q), (no_val_event_scores _ Q), Ev, Sc.
    rewrite (no_val_event_events _ (summary_no_val_event _ _ _ _ _ _)).
    rewrite (no_val_event_scores _ (summary_no_val_event _ _ _ _ _ _)).
    cbn [app best_tracker best_after fold_left snd].
    split.
    + destruct (PrimFloat.ltb best_iou v); reflexivity.
    + intros ? ? ? H. injection H as _ _ H. symmetry. exact H.
Qed.

(** The epoch loop of [fit], from any best score. *)
Lemma fit_epochs_track epochs : forall iters val_iters best_iou w,
  val_events self
    (calls (for_each (fit_epoch self) epochs (iters, val_iters, best_iou) w))
  = best_tracker best_iou
      (val_scores self
         (calls (for_each (fit_epoch self) epochs
                          (iters, val_iters, best_iou) w))).
Proof.
  induction epochs as [|epoch rest IH]; intros iters val_iters best_iou w.
  - reflexivity.
  - cbn [for_each].
    destruct (fit_epoch_tracks epoch iters val_iters best_iou w) as [T B].
    destruct (fit_epoch self epoch (iters, val_iters, best_iou) w)
      as [[[v1|e1] w1] cs1] eqn:E1; cbn [calls outcome fst snd] in T, B.
    + rewrite (bind_Ret _ _ _ _ _ _ E1).
      destruct v1 as [[iters1 val_iters1] best1].
      unfold prepend. cbn [calls snd].
      rewrite val_events_app, val_scores_app, best_tracker_app.
      rewrite <- (B _ _ _ eq_refl), <- T, IH. reflexivity.
    + rewrite (bind_Raise _ _ _ _ _ _ E1). exact T.
Qed.

(** *** The phases of an epoch *)

Lemma phases_app cs1 cs2 :
  phases self (cs1 ++ cs2) = phases self cs1 ++ phases self cs2.
Proof. apply filter_map_app. Qed.




(** [fit] follows the tracker started at [0.0]. *)
Lemma fit_tracks epochs w :
  val_events self (calls (fit self epochs w))
  = best_tracker 0%float (val_scores self (calls (fit self epochs w))).
Proof.
  pose proof (fit_epochs_track (Py.range 1 (epochs + 1)) (-1) (-1) 0%float w)
    as T.
  unfold fit, print. rewrite bind_call.
  destruct (for_each (fit_epoch self) (Py.range 1 (epochs + 1))
                     (-1, -1, 0%float) w) as [[[v|e] w'] cs] eqn:E;
    cbn [calls snd] in T.
  - rewrite (bind_Ret _ _ _ _ _ _ E).
    cbn [prepend ret outcome world calls fst snd app].
    rewrite app_nil_r. exact T.
  - rewrite (bind_Raise _ _ _ _ _ _ E).
    cbn [prepend ret outcome world calls fst snd app]. exact T.
Qed.

(* ------------------------------------------------------------------ *)
(** ** The claims about the trainer *)

(** C1. In every epoch the best-model checkpoint is written if and only if
    the epoch's validation mIoU strictly exceeds the best score so far, and
    exactly then the best score becomes that mIoU; [fit] starts from a best
    score of 0.0.  First for one call of [_eval_one_epoch] (what it logs and
    the best score it returns), then for a whole run of [fit], whose scores
    and best-model checkpoints are those of the tracker started at 0.0. *)
Theorem best_checkpoint_iff_improved :
  (forall epoch iters best_iou w,
      match outcome (_eval_one_epoch self epoch iters best_iou w) with
      | Ret (_, val_iou, _, best_iou') =>
          val_events self (calls (_eval_one_epoch self epoch iters best_iou w))
          = Scored epoch val_iou
            :: (if PrimFloat.ltb best_iou val_iou then [BestSaved] else [])
          /\ best_iou'
             = (if PrimFloat.ltb best_iou val_iou then val_iou else best_iou)
      | Raise _ =>
          val_events self (calls (_eval_one_epoch self epoch iters best_iou w))
          = []
      end)
  /\ (forall epochs w,
         val_events self (calls (fit self epochs w))
         = best_tracker 0%float (val_scores self (calls (fit self epochs w)))).
Proof.
  split.
  - intros epoch iters best_iou w.
    destruct (eval_one_epoch_val_events epoch iters best_iou w)
      as [(e & w' & cs & E & Q) | (loss & v & it' & w' & cs & E & Ev & _)];
      rewrite E; cbn [outcome calls fst snd].
    + apply no_val_event_events. exact Q.
    + split; [exact Ev | reflexivity].
  - exact fit_tracks.
Qed.




(** C5. If the three epochs of [fit 3] score validation mIoUs 0.10, 0.25 and
    0.20, the best-model checkpoint is written right after the scores of
    epoch 1 and of epoch 2, and not after the score of epoch 3. *)
Theorem best_checkpoints_in_three_epochs w :
  val_scores self (calls (fit self 3 w))
  = [(1, 0.10%float); (2, 0.25%float); (3, 0.20%float)] ->
  val_events self (calls (fit self 3 w))
  = [Scored 1 0.10; BestSaved; Scored 2 0.25; BestSaved; Scored 3 0.20].
Proof.
  intros H. rewrite fit_tracks, H. reflexivity.
Qed.


(** C7. [_eval_one_epoch] updates nothing: it makes no optimizer step, no
    zeroing of the gradients, no backward pass and no metric update, it never
    reads the running metric, and it leaves parameters, gradients and
    optimizer state as they were (the metric is only reset).  On a loader that yields a batch it calls
    [mean_iou_score] once, on the concatenated predictions and the
    concatenated ground truths of all batches, and returns the average loss,
    that score and the updated best score. *)
Theorem validation_updates_nothing epoch iters best_iou w :
  (params (world (_eval_one_epoch self epoch iters best_iou w)) = params w
   /\ grads (world (_eval_one_epoch self epoch iters best_iou w)) = grads w
   /\ opt_state (world (_eval_one_epoch self epoch iters best_iou w))
      = opt_state w
   /\ metric (world (_eval_one_epoch self epoch iters best_iou w))
      = metric_reset (metric w))
  /\ Forall (fun c => is_update c = false /\ is_metric_read c = false)
            (calls (_eval_one_epoch self epoch iters best_iou w))
  /\ (val_loader self <> [] ->
      let val_iou :=
        mean_iou_score
          (List.concat
             (map (fun b => softmax_argmax (model_forward false (params w) (fst b)))
                  (val_loader self)))
          (List.concat (map (fun b => segs_numpy (snd b)) (val_loader self))) in
      let losses :=
        map (fun b => criterion (model_forward false (params w) (fst b)) (snd b))
            (val_loader self) in
      outcome (_eval_one_epoch self epoch iters best_iou w)
      = Ret (PrimFloat.div (fsum losses)
                           (Py.float_of_int
                              (Z.of_nat (List.length (val_loader self)))),
             val_iou,
             iters + Z.of_nat (List.length (val_loader self)),
             if PrimFloat.ltb best_iou val_iou then val_iou else best_iou)
      /\ count is_mean_iou_score
               (calls (_eval_one_epoch self epoch iters best_iou w)) = 1%nat).
Proof.
  destruct (val_loader self) as [|b rest] eqn:El.
  - rewrite (eval_one_epoch_empty _ _ _ _ El). cbn [world calls fst snd].
    split; [repeat split|]. split; [repeat constructor | congruence].
  - assert (val_loader self <> []) as Hne by congruence.
    destruct (eval_one_epoch_spec epoch iters best_iou w Hne)
      as (cs & E & _ & _ & U & Mi & Rd).
    rewrite E. cbn [world calls outcome fst snd].
    split; [repeat split|]. split.
    + repeat (apply Forall_app; split); try repeat constructor.
      * clear E. induction U as [|c cs' Hc _ IH]; [constructor|].
        inversion Mi; inversion Rd; subst. constructor; auto.
      * destruct (PrimFloat.ltb best_iou (epoch_val_iou self w));
          repeat constructor.
    + intros _. cbn zeta. split.
      * unfold epoch_val_iou, epoch_val_losses, val_batches. rewrite El.
        reflexivity.
      * rewrite !count_app.
        rewrite (count_none _ _ Mi).
        destruct (PrimFloat.ltb best_iou (epoch_val_iou self w)); reflexivity.
Qed.


End TrainerFacts.

(* ------------------------------------------------------------------ *)
(** ** The claims about the argument parser *)

(** C9. On an empty command line [arg_parse] returns exactly the defaults:
    data_dir "hw2_data", workers 4, save_dir "models", pretrained false,
    gpu 0, epoch 100, val_epoch 1, train_batch 32, test_batch 32, lr 0.0002,
    weight_decay 0.0005, an empty resume path and random_seed 42. *)
Theorem arg_parse_defaults py_int py_float :
  ArgParse.arg_parse py_int py_float []
  = ArgParse.Parsed
      [ ("data_dir"%string, ArgParse.VStr "hw2_data");
        ("workers"%string, ArgParse.VInt 4);
        ("save_dir"%string, ArgParse.VStr "models");
        ("pretrained"%string, ArgParse.VBool false);
        ("gpu"%string, ArgParse.VInt 0);
        ("epoch"%string, ArgParse.VInt 100);
        ("val_epoch"%string, ArgParse.VInt 1);
        ("train_batch"%string, ArgParse.VInt 32);
        ("test_batch"%string, ArgParse.VInt 32);
        ("lr"%string, ArgParse.VFloat 0.0002);
        ("weight_decay"%string, ArgParse.VFloat 0.0005);
        ("resume"%string, ArgParse.VStr EmptyString);
        ("random_seed"%string, ArgParse.VInt 42) ].
Proof.
  unfold ArgParse.arg_parse, ArgParse.parse_args.
  cbn [ArgParse.in_scope forallb ArgParse.consume].
  unfold ArgParse.defaults, ArgParse.parser.
  cbn [fold_left ArgParse.action ArgParse.help_argument ArgParse.add_argument].
  reflexivity.
Qed.



(* ------------------------------------------------------------------ *)
(** ** The claims at the concrete instance *)

Import Demo.




Lemma best_checkpoints_in_three_epochs_witness :
  val_scores single (calls (fit single 3 fresh))
  = [(1, 0.10%float); (2, 0.25%float); (3, 0.20%float)]
  /\ val_events single (calls (fit single 3 fresh))
     = [Scored 1 0.10; BestSaved; Scored 2 0.25; BestSaved; Scored 3 0.20].
Proof.
  split; [reflexivity|].
  exact (best_checkpoints_in_three_epochs single fresh eq_refl).
Defined.


Lemma validation_updates_nothing_witness :
  val_loader single <> []
  /\ outcome (_eval_one_epoch single 1 (-1) 0%float stepped_twice)
     = Ret (0.5%float, 0.10%float, 0, 0.10%float).
Proof.
  assert (val_loader single <> []) as Hv by discriminate.
  split; [exact Hv|].
  exact (proj1 (proj2 (proj2 (validation_updates_nothing
                                single 1 (-1) 0%float stepped_twice)) Hv)).
Defined.



(** The trailing step does not look at the accumulation window: with one
    batch and a step after every batch the window is complete, and the step
    inside the loop is followed by the trailing one. *)
Example trailing_step_after_complete_window :
  filter optimizer_view (calls (_run_one_epoch single 1 (-1) fresh))
  = [ModelForward; ZeroGrad; Step; Step; ZeroGrad].
Proof. reflexivity. Qed.

(** With the default [save_dir] the third epoch is checkpointed here. *)
Example third_epoch_path : epoch_path single 3 = "models/model_3.pth.tar"%string.
Proof. reflexivity. Qed.

(** The average loss of five batches of loss 0.5 each. *)
Example ragged_average_loss :
  outcome (_run_one_epoch ragged 1 (-1) fresh) = Ret (0.5%float, 0.5%float, 4).
Proof. reflexivity. Qed.

(* ------------------------------------------------------------------ *)
(** ** Further facts about the trainer *)

Lemma range_empty lo hi : hi <= lo -> Py.range lo hi = [].
Proof.
  intros H. unfold Py.range.
  replace (Z.to_nat (hi - lo)) with O by lia. reflexivity.
Qed.

Lemma range_cons lo hi :
  lo < hi -> Py.range lo hi = lo :: Py.range (lo + 1) hi.
Proof.
  intros H. unfold Py.range.
  replace (Z.to_nat (hi - lo)) with (S (Z.to_nat (hi - (lo + 1)))) by lia.
  cbn [seq map]. f_equal; [lia|].
  rewrite <- seq_shift, map_map. apply map_ext. intros i. lia.
Qed.


Lemma ltb_irrefl (x : float) : PrimFloat.ltb x x = false.
Proof.
  rewrite ltb_spec. unfold SFltb.
  destruct (Prim2SF x) as [b|b| |b m e]; cbn; try reflexivity.
  - destruct b; reflexivity.
  - destruct b; rewrite Z.compare_refl, Pos.compare_cont_refl; reflexivity.
Qed.

Lemma ltb_nan_r (b v : float) :
  PrimFloat.is_nan v = true -> PrimFloat.ltb b v = false.
Proof.
  unfold PrimFloat.is_nan. rewrite eqb_spec, ltb_spec. intros H.
  apply negb_true_iff in H.
  assert (Prim2SF v = S754_nan) as N.
  { unfold SFeqb in H.
    destruct (Prim2SF v) as [s|s| |s m e]; cbn in H; try discriminate;
      try reflexivity.
    - destruct s; discriminate.
    - destruct s; rewrite Z.compare_refl, Pos.compare_cont_refl in H;
        discriminate. }
  rewrite N. unfold SFltb.
  destruct (Prim2SF b) as [s|s| |s m e]; reflexivity.
Qed.

Section TrainerFurther.
Context {K : Collaborators}.
Variable self : Trainer.


Lemma saved_app (cs1 cs2 : list Call) :
  saved (cs1 ++ cs2) = saved cs1 ++ saved cs2.
Proof. apply filter_map_app. Qed.

Lemma per_batch_saved cs :
  Forall (fun c => per_batch c = true) cs -> saved cs = [].
Proof.
  intros H. apply filter_map_none.
  eapply Forall_impl; [|exact H].
  intros c. destruct c; cbn; try reflexivity; discriminate.
Qed.


(** *** [fit] when an epoch cannot finish *)

Lemma fit_first_raises epochs w e w' cs :
  1 <= epochs ->
  fit_epoch self 1 (-1, -1, 0%float) w = (Raise e, w', cs) ->
  fit self epochs w = (Raise e, w', Print StartTraining :: cs).
Proof.
  intros H E. unfold fit, print. rewrite bind_call.
  rewrite range_cons by lia. cbn [for_each].
  rewrite (bind_Raise _ _ _ _ _ _ (bind_Raise _ _ _ _ _ _ E)).
  reflexivity.
Qed.

(** X1. [fit] asked for no epoch (zero or a negative number) prints the
    start line and returns [None]: nothing is trained, logged or saved. *)
Theorem fit_without_epochs epochs w :
  epochs <= 0 ->
  fit self epochs w = (Ret tt, w, [Print StartTraining]).
Proof.
  intros H. unfold fit, print. rewrite bind_call.
  rewrite range_empty by lia. cbn [for_each].
  rewrite !bind_ret. reflexivity.
Qed.

(** X2. With [accumulate_gradient = 0] and a training batch, [fit] raises
    [ZeroDivisionError] in its first batch, after the forward pass and the
    loss but before any gradient is zeroed or computed: parameters, gradients
    and optimizer state are untouched and no checkpoint is written. *)
Theorem fit_zero_accumulation epochs w :
  1 <= epochs ->
  accumulate_gradient self = 0 ->
  train_loader self <> [] ->
  outcome (fit self epochs w) = Raise ZeroDivisionError
  /\ calls (fit self epochs w)
     = [Print StartTraining; ModelTrain; MetricReset; ModelForward; Criterion]
  /\ params (world (fit self epochs w)) = params w
  /\ grads (world (fit self epochs w)) = grads w
  /\ opt_state (world (fit self epochs w)) = opt_state w.
Proof.
  intros He Hk Hne.
  pose proof (fit_epoch_train_raises self 1 (-1) (-1) 0%float w _ _ _
                (run_one_epoch_zero self 1 (-1) w Hk Hne)) as E.
  rewrite (fit_first_raises epochs w _ _ _ He E).
  repeat split.
Qed.

(** X3. With a training loader that yields no batch, [fit] raises
    [UnboundLocalError] in its first epoch, right after putting the model in
    training mode and resetting the metric: no batch is run, nothing is
    logged and no checkpoint is written. *)
Theorem fit_without_training_batches epochs w :
  1 <= epochs ->
  train_loader self = [] ->
  fit self epochs w
  = (Raise UnboundLocalError, entered_training w,
     [Print StartTraining; ModelTrain; MetricReset]).
Proof.
  intros He Hl.
  pose proof (fit_epoch_train_raises self 1 (-1) (-1) 0%float w _ _ _
                (run_one_epoch_empty self 1 (-1) w Hl)) as E.
  exact (fit_first_raises epochs w _ _ _ He E).
Qed.


(** X20. A metric whose [name] is [loss] stops [fit] in its first batch:
    the batch is run in full (forward pass, loss, backward pass, the
    optimizer step when it closes a window, metric update, logged loss), then
    the call of [set_postfix] raises [TypeError] for the repeated keyword;
    no epoch completes and no checkpoint is written. *)
Theorem metric_named_loss_stops_training epochs w b rest :
  1 <= epochs ->
  metric_name = "loss"%string ->
  accumulate_gradient self <> 0 ->
  train_loader self = b :: rest ->
  outcome (fit self epochs w) = Raise TypeError
  /\ world (fit self epochs w)
     = after_batch (accumulate_gradient self) 0 b (entered_training w)
  /\ logged "loss/train_loss" (calls (fit self epochs w))
     = [batch_loss_in (entered_training w) b]
  /\ count is_step (calls (fit self epochs w))
     = (if 1 mod accumulate_gradient self =? 0 then 1%nat else 0%nat)
  /\ phases self (calls (fit self epochs w)) = [Started; TrainingBegins]
  /\ saved (calls (fit self epochs w)) = [].
Proof.
  intros He Hm Hk El.
  destruct (run_one_epoch_clash self 1 (-1) w b rest Hm Hk El) as (E1 & P).
  destruct (train_batch_clash self 0 b
              {| loc_idx := None; loc_iters := -1; loc_batch_loss := 0 |}
              (entered_training w) Hm Hk ltac:(lia))
    as (cs & Eb & _ & _ & Sc).
  destruct (train_batch_after self 0 b
              {| loc_idx := None; loc_iters := -1; loc_batch_loss := 0 |}
              (entered_training w) Hk ltac:(lia)) as [_ L].
  rewrite Eb in E1, P, L. cbn [calls snd] in E1, P, L.
  pose proof (fit_epoch_train_raises self 1 (-1) (-1) 0%float w _ _ _ E1) as E.
  rewrite (fit_first_raises epochs w _ _ _ He E).
  cbn [outcome world calls fst snd].
  change (Print StartTraining :: [ModelTrain; MetricReset] ++ cs)
    with ([Print StartTraining; ModelTrain; MetricReset] ++ cs).
  rewrite logged_app, count_app, phases_app, saved_app.
  rewrite L, Sc, (per_batch_phases self cs P), (per_batch_saved cs P).
  repeat split.
Qed.

(** *** What a batch does to the world *)

Lemma train_batch_world idx batch l w :
  accumulate_gradient self <> 0 -> 0 <= idx ->
  world (train_batch self idx batch l w)
  = set_metric
      (metric_update (batch_preds_in w batch) (batch_segs batch) (metric w))
      (if (idx + 1) mod accumulate_gradient self =? 0
       then set_optimized
              (step (opt_state w) (params w)
                    (grads_after_batch (accumulate_gradient self) idx batch w))
              (set_grads
                 (grads_after_batch (accumulate_gradient self) idx batch w) w)
       else set_grads
              (grads_after_batch (accumulate_gradient self) idx batch w) w).
Proof.
  intros Hk Hidx.
  exact (proj1 (train_batch_after self idx batch l w Hk Hidx)).
Qed.

(** X5. One batch of training, for a non-zero [accumulate_gradient]: the
    gradients are accumulated onto the stored ones (zeroed first when the
    batch opens a window); parameters and optimizer state change only when
    the batch closes a window, and then by one optimizer step on the
    accumulated gradients; the running metric takes in the batch. *)
Theorem batch_accumulates_then_steps idx batch l w :
  accumulate_gradient self <> 0 -> 0 <= idx ->
  grads (world (train_batch self idx batch l w))
  = grads_after_batch (accumulate_gradient self) idx batch w
  /\ ((idx + 1) mod accumulate_gradient self <> 0 ->
      params (world (train_batch self idx batch l w)) = params w
      /\ opt_state (world (train_batch self idx batch l w)) = opt_state w)
  /\ ((idx + 1) mod accumulate_gradient self = 0 ->
      (opt_state (world (train_batch self idx batch l w)),
       params (world (train_batch self idx batch l w)))
      = step (opt_state w) (params w)
             (grads_after_batch (accumulate_gradient self) idx batch w))
  /\ metric (world (train_batch self idx batch l w))
     = metric_update (batch_preds_in w batch) (batch_segs batch) (metric w)
  /\ training (world (train_batch self idx batch l w)) = training w.
Proof.
  intros Hk Hidx. rewrite (train_batch_world idx batch l w Hk Hidx).
  destruct ((idx + 1) mod accumulate_gradient self =? 0) eqn:E.
  - apply Z.eqb_eq in E.
    split; [reflexivity|]. split; [intros H; contradiction|].
    split; [|split; reflexivity].
    intros _. cbn. symmetry. apply surjective_pairing.
  - apply Z.eqb_neq in E.
    split; [reflexivity|]. split; [intros _; split; reflexivity|].
    split; [intros H; contradiction|]. split; reflexivity.
Qed.

(** *** The batches after the last complete window *)

Lemma for_enumerate_app_Ret {A S : Type}
      (body : Z -> A -> S -> @M World Call S) (xs ys : list A) :
  forall i s w s1 w1 cs1,
    for_enumerate body i xs s w = (Ret s1, w1, cs1) ->
    for_enumerate body i (xs ++ ys) s w
    = prepend cs1
        (for_enumerate body (i + Z.of_nat (List.length xs)) ys s1 w1).
Proof.
  induction xs as [|x xs IH]; intros i s w s1 w1 cs1 E.
  - cbn in E. injection E as <- <- <-. cbn [List.length app].
    rewrite Z.add_0_r, prepend_nil. reflexivity.
  - cbn [for_enumerate app] in *.
    destruct (body i x s w) as [[[s'|e] w'] cs'] eqn:Eb.
    + rewrite (bind_Ret _ _ _ _ _ _ Eb) in E.
      rewrite (bind_Ret _ _ _ _ _ _ Eb).
      destruct (for_enumerate body (i + 1) xs s' w') as [[r2 w2] cs2] eqn:E2.
      unfold prepend, outcome, world, calls in E. cbn [fst snd] in E.
      injection E as -> <- <-.
      rewrite (IH _ _ _ _ _ _ E2).
      replace (i + 1 + Z.of_nat (List.length xs))
        with (i + Z.of_nat (List.length (x :: xs)))
        by (cbn [List.length]; lia).
      unfold prepend. cbn [outcome world calls fst snd].
      rewrite app_assoc. reflexivity.
    + rewrite (bind_Raise _ _ _ _ _ _ Eb) in E. discriminate.
Qed.

(** Batches none of which closes a window leave parameters and optimizer
    state alone. *)
Lemma open_window_keeps_params ys : forall i l w,
  metric_name <> "loss"%string ->
  accumulate_gradient self <> 0 -> 0 <= i ->
  (forall j, i <= j < i + Z.of_nat (List.length ys) ->
             (j + 1) mod accumulate_gradient self <> 0) ->
  params (world (for_enumerate (train_batch self) i ys l w)) = params w
  /\ opt_state (world (for_enumerate (train_batch self) i ys l w))
     = opt_state w.
Proof.
  induction ys as [|y ys IH]; intros i l w Hm Hk Hi Hj.
  - split; reflexivity.
  - cbn [for_enumerate].
    destruct (train_batch_spec self i y l w Hm Hk Hi)
      as (l1 & w1 & cs1 & E1 & _).
    pose proof (train_batch_world i y l w Hk Hi) as Hw.
    rewrite E1 in Hw. cbn [world fst snd] in Hw.
    rewrite (bind_Ret _ _ _ _ _ _ E1). cbn [prepend world fst snd].
    destruct (IH (i + 1) l1 w1 Hm Hk ltac:(lia)) as [P O].
    { intros j Hr. apply Hj. cbn [List.length]. lia. }
    rewrite P, O, Hw.
    assert (((i + 1) mod accumulate_gradient self =? 0) = false) as E.
    { apply Z.eqb_neq. apply Hj. cbn [List.length]. lia. }
    rewrite E. split; reflexivity.
Qed.

Lemma trailing_step_idle idx w :
  idx mod 4 <> 0 -> trailing_step idx w = (Ret tt, w, []).
Proof.
  intros H. unfold trailing_step.
  rewrite (mod_nonzero idx 4) by lia. rewrite bind_eval_Ret.
  apply Z.eqb_neq in H. rewrite H. reflexivity.
Qed.

Lemma trailing_step_returns idx w :
  exists w' cs, trailing_step idx w = (Ret tt, w', cs).
Proof.
  unfold trailing_step.
  rewrite (mod_nonzero idx 4) by lia. rewrite bind_eval_Ret.
  destruct (idx mod 4 =? 0).
  - unfold optimizer_step, optimizer_zero_grad. rewrite bind_call.
    do 2 eexists. reflexivity.
  - do 2 eexists. reflexivity.
Qed.

(** The world [_run_one_epoch] leaves is the one the trailing step leaves. *)
Lemma run_one_epoch_world epoch iters w :
  metric_name <> "loss"%string ->
  accumulate_gradient self <> 0 -> train_loader self <> [] ->
  world (_run_one_epoch self epoch iters w)
  = world (trailing_step (batches self - 1)
                         (world (train_loop self iters (entered_training w)))).
Proof.
  intros Hm Hk Hne.
  destruct (train_loop_returns self iters (entered_training w) Hm Hk Hne)
    as (l' & w' & E & I & T & B & _).
  pose proof (batches_positive self Hne) as Hpos.
  unfold _run_one_epoch, model_train, metric_reset_call.
  rewrite !bind_call. cbn [metric set_training].
  fold (entered_training w).
  rewrite (bind_Ret _ _ _ _ _ _ E), I.
  unfold read_idx. rewrite bind_eval_Ret.
  rewrite E. cbn [world fst snd].
  destruct (trailing_step_returns (batches self - 1) w') as (w2 & cs2 & Et).
  rewrite (bind_Ret _ _ _ _ _ _ Et), Et.
  unfold metric_get_score_call, writer_add_scalar. rewrite !bind_call.
  rewrite truediv_nonzero by lia. rewrite bind_eval_Ret, bind_call.
  reflexivity.
Qed.

Lemma loop_drops_open_window xs ys l w :
  metric_name <> "loss"%string ->
  0 < accumulate_gradient self ->
  Z.of_nat (List.length xs) mod accumulate_gradient self = 0 ->
  Z.of_nat (List.length ys) < accumulate_gradient self ->
  params (world (for_enumerate (train_batch self) 0 (xs ++ ys) l w))
  = params (world (for_enumerate (train_batch self) 0 xs l w))
  /\ opt_state (world (for_enumerate (train_batch self) 0 (xs ++ ys) l w))
     = opt_state (world (for_enumerate (train_batch self) 0 xs l w)).
Proof.
  intros Hm Hk Hx Hy.
  assert (accumulate_gradient self <> 0) as Hk0 by lia.
  destruct (train_loop_spec self xs 0 l w Hm Hk0 ltac:(lia))
    as (l1 & w1 & cs1 & E1 & _).
  rewrite (for_enumerate_app_Ret _ xs ys _ _ _ _ _ _ E1), E1.
  cbn [prepend world fst snd].
  apply open_window_keeps_params; [exact Hm | exact Hk0 | lia |].
  intros j Hj.
  pose proof (Z.div_mod (Z.of_nat (List.length xs)) _ Hk0) as D.
  rewrite Hx, Z.add_0_r in D.
  rewrite <- (Z.mod_unique_pos (j + 1) (accumulate_gradient self)
                (Z.of_nat (List.length xs) / accumulate_gradient self)
                (j + 1 - Z.of_nat (List.length xs))); lia.
Qed.

(** X6. The batches after the last complete accumulation window never reach
    the parameters unless the trailing step fires: for an epoch of [n]
    batches with [(n - 1) % 4 != 0], the parameters and the optimizer state
    after [_run_one_epoch] are those the batch loop leaves after the first
    [k * floor(n / k)] batches alone. *)
Theorem incomplete_window_is_dropped epoch iters w :
  0 < accumulate_gradient self ->
  train_loader self <> [] ->
  (batches self - 1) mod 4 <> 0 ->
  params (world (_run_one_epoch self epoch iters w))
  = params
      (world
         (for_enumerate (train_batch self) 0
            (firstn (Z.to_nat (accumulate_gradient self
                               * (batches self / accumulate_gradient self)))
                    (train_loader self))
            {| loc_idx := None; loc_iters := iters; loc_batch_loss := 0 |}
            (entered_training w)))
  /\ opt_state (world (_run_one_epoch self epoch iters w))
     = opt_state
         (world
            (for_enumerate (train_batch self) 0
               (firstn (Z.to_nat (accumulate_gradient self
                                  * (batches self / accumulate_gradient self)))
                       (train_loader self))
               {| loc_idx := None; loc_iters := iters; loc_batch_loss := 0 |}
               (entered_training w))).
Proof.
  intros Hk Hne H4.
  assert (accumulate_gradient self <> 0) as Hk0 by lia.
  set (m := Z.to_nat (accumulate_gradient self
                      * (batches self / accumulate_gradient self))).
  pose proof (batches_positive self Hne) as Hpos.
  pose proof (Z.mul_div_le (batches self) _ Hk) as Hle.
  pose proof (Z.div_pos (batches self) _ ltac:(lia) Hk) as Hq.
  pose proof (Z.mod_pos_bound (batches self) _ Hk) as Hr.
  pose proof (Z.div_mod (batches self) _ Hk0) as D.
  destruct (string_dec metric_name "loss") as [Hm|Hm].
  { (* the first batch raises, in the epoch and in the shorter loop alike *)
    destruct (train_loader self) as [|b rest] eqn:El; [congruence|].
    destruct (run_one_epoch_clash self epoch iters w b rest Hm Hk0 El)
      as (E & _).
    rewrite E. cbn [world fst snd].
    destruct m as [|m'] eqn:Em.
    - cbn [firstn for_enumerate ret world fst snd].
      assert (batches self / accumulate_gradient self = 0) as Q by (unfold m in Em; nia).
      assert (((0 + 1) mod accumulate_gradient self =? 0) = false) as N.
      { apply Z.eqb_neq. rewrite Z.mod_small; lia. }
      unfold after_batch. rewrite N. split; reflexivity.
    - cbn [firstn for_enumerate].
      destruct (train_batch_clash self 0 b
                  {| loc_idx := None; loc_iters := iters; loc_batch_loss := 0 |}
                  (entered_training w) Hm Hk0 ltac:(lia)) as (cs' & E' & _).
      rewrite (bind_Raise _ _ _ _ _ _ E'). split; reflexivity. }
  rewrite (run_one_epoch_world epoch iters w Hm Hk0 Hne).
  rewrite (trailing_step_idle _ _ H4). cbn [world fst snd].
  unfold train_loop.
  assert (List.length (firstn m (train_loader self)) = m) as Lx.
  { apply firstn_length_le. unfold m, batches in *. nia. }
  assert (Z.of_nat (List.length (skipn m (train_loader self)))
          = batches self mod accumulate_gradient self) as Ly.
  { rewrite length_skipn. unfold m, batches in *. nia. }
  rewrite <- (firstn_skipn m (train_loader self)) at 1 3.
  apply loop_drops_open_window; [exact Hm | exact Hk | | lia].
  rewrite Lx. unfold m. rewrite Z2Nat.id by nia.
  rewrite Z.mul_comm. apply Z.mod_mul. exact Hk0.
Qed.

(** *** Global steps, optimizer steps and the mode [fit] ends in *)













(** *** Scores that do not improve *)

Lemma epoch_val_iou_again w :
  epoch_val_iou self (entered_validation w) = epoch_val_iou self w.
Proof. reflexivity. Qed.

Lemma epoch_val_losses_again w :
  epoch_val_losses self (entered_validation w) = epoch_val_losses self w.
Proof. reflexivity. Qed.

(** X11. Validating twice in a row: a second [_eval_one_epoch], run in the
    world the first one left and given the best score it returned, computes
    the same loss and the same mIoU, returns the same best score and writes
    no best-model checkpoint (a score equal to the best is no improvement). *)
Theorem revalidation_saves_nothing epoch iters best_iou w epoch' iters' :
  val_loader self <> [] ->
  exists loss val_iou best_iou',
    outcome (_eval_one_epoch self epoch iters best_iou w)
    = Ret (loss, val_iou, iters + val_batches self, best_iou')
    /\ outcome (_eval_one_epoch self epoch' iters' best_iou'
                  (world (_eval_one_epoch self epoch iters best_iou w)))
       = Ret (loss, val_iou, iters' + val_batches self, best_iou')
    /\ val_events self
         (calls (_eval_one_epoch self epoch' iters' best_iou'
                   (world (_eval_one_epoch self epoch iters best_iou w))))
       = [Scored epoch' val_iou].
Proof.
  intros Hne.
  destruct (eval_one_epoch_spec self epoch iters best_iou w Hne)
    as (cs & E & _).
  rewrite E. cbn [outcome world fst snd].
  set (v := epoch_val_iou self w) in *.
  set (b := if PrimFloat.ltb best_iou v then v else best_iou).
  assert (PrimFloat.ltb b v = false) as Hb.
  { unfold b. destruct (PrimFloat.ltb best_iou v) eqn:L;
      [apply ltb_irrefl | exact L]. }
  destruct (eval_one_epoch_spec self epoch' iters' b (entered_validation w) Hne)
    as (cs' & E' & _ & P & _).
  rewrite epoch_val_iou_again, epoch_val_losses_again in E'.
  fold v in E'. rewrite Hb in E'.
  exists (PrimFloat.div (fsum (epoch_val_losses self w))
                        (Py.float_of_int (val_batches self))), v, b.
  rewrite E'. cbn [outcome calls fst snd].
  split; [reflexivity|]. split; [reflexivity|].
  unfold val_events. rewrite !filter_map_app.
  fold (val_events self cs'). rewrite (per_batch_val_events self cs' P).
  reflexivity.
Qed.

(** X12. A validation score that is not a number never becomes the best
    score and never triggers the best-model checkpoint, whatever the best
    score so far. *)
Theorem nan_score_is_never_best epoch iters best_iou w :
  match outcome (_eval_one_epoch self epoch iters best_iou w) with
  | Ret (_, val_iou, _, best_iou') =>
      PrimFloat.is_nan val_iou = true ->
      best_iou' = best_iou
      /\ val_events self (calls (_eval_one_epoch self epoch iters best_iou w))
         = [Scored epoch val_iou]
  | Raise _ => True
  end.
Proof.
  destruct (eval_one_epoch_val_events self epoch iters best_iou w)
    as [(e & w' & cs & E & _) | (loss & v & it' & w' & cs & E & Ev & _)];
    rewrite E; cbn [outcome calls fst snd]; [exact I|].
  intros N. rewrite Ev, (ltb_nan_r best_iou v N). split; reflexivity.
Qed.

Lemma best_tracker_flat scores : forall best,
  Forall (fun s => PrimFloat.ltb best (snd s) = false) scores ->
  best_tracker best scores = map (fun s => Scored (fst s) (snd s)) scores.
Proof.
  induction scores as [|[e v] rest IH]; intros best H.
  - reflexivity.
  - inversion H as [|? ? Hv Hr]; subst. cbn [snd] in Hv.
    cbn [best_tracker map fst snd]. rewrite Hv, (IH best Hr). reflexivity.
Qed.

(** X13. The best score starts at 0.0 and only a strictly greater score
    counts: in a run of [fit] whose validation scores never exceed 0.0, no
    best-model checkpoint is ever written. *)
Theorem no_best_model_without_positive_score epochs w :
  Forall (fun s => PrimFloat.ltb 0%float (snd s) = false)
         (val_scores self (calls (fit self epochs w))) ->
  val_events self (calls (fit self epochs w))
  = map (fun s => Scored (fst s) (snd s))
        (val_scores self (calls (fit self epochs w))).
Proof.
  intros H. rewrite fit_tracks. apply best_tracker_flat. exact H.
Qed.

End TrainerFurther.

(* ------------------------------------------------------------------ *)
(** ** Further facts about the argument parser *)

Lemma getattr_setattr_same name v ns :
  ArgParse.getattr name (ArgParse.setattr name v ns) = Some v.
Proof.
  induction ns as [|[n old] rest IH]; cbn.
  - rewrite String.eqb_refl. reflexivity.
  - destruct (String.eqb n name) eqn:E; cbn; rewrite E; [reflexivity|exact IH].
Qed.

Lemma getattr_setattr_other name name' v ns :
  name' <> name ->
  ArgParse.getattr name' (ArgParse.setattr name v ns) = ArgParse.getattr name' ns.
Proof.
  intros Hn. apply String.eqb_neq in Hn.
  induction ns as [|[n old] rest IH]; cbn.
  - rewrite String.eqb_sym, Hn. reflexivity.
  - destruct (String.eqb n name) eqn:E; cbn.
    + apply String.eqb_eq in E. subst n.
      rewrite String.eqb_sym, Hn. reflexivity.
    + destruct (String.eqb n name'); [reflexivity|exact IH].
Qed.

Lemma setattr_comm n1 v1 n2 v2 ns :
  n1 <> n2 ->
  In n1 (map fst ns) -> In n2 (map fst ns) ->
  ArgParse.setattr n1 v1 (ArgParse.setattr n2 v2 ns)
  = ArgParse.setattr n2 v2 (ArgParse.setattr n1 v1 ns).
Proof.
  intros Hn. induction ns as [|[n old] rest IH]; cbn; intros I1 I2.
  - contradiction.
  - destruct (String.eqb n n1) eqn:E1, (String.eqb n n2) eqn:E2; cbn;
      rewrite ?E1, ?E2; try reflexivity.
    + apply String.eqb_eq in E1, E2. congruence.
    + f_equal. apply IH.
      * destruct I1 as [I1|I1]; [|exact I1].
        apply String.eqb_neq in E1. contradiction.
      * destruct I2 as [I2|I2]; [|exact I2].
        apply String.eqb_neq in E2. contradiction.
Qed.

Lemma getattr_in name ns d :
  ArgParse.getattr name ns = Some d -> In name (map fst ns).
Proof.
  induction ns as [|[n old] rest IH]; cbn; [discriminate|].
  destruct (String.eqb n name) eqn:E.
  - apply String.eqb_eq in E. auto.
  - intros H. right. exact (IH H).
Qed.

(** The table of [arg_parse]: flags are told apart, and every default is of
    the declared type. *)

Lemma classify_flag a f :
  In a ArgParse.parser -> In f (ArgParse.flags a) ->
  ArgParse.classify ArgParse.parser f = ArgParse.Optional a None.
Proof.
  unfold ArgParse.parser. intros Ha.
  repeat (destruct Ha as [<-|Ha]; [intros Hf; cbn in Hf;
    repeat (destruct Hf as [<-|Hf]; [reflexivity|]); contradiction|]).
  contradiction.
Qed.

Lemma classify_flag_equals a ty f s :
  stores a ty -> In f (ArgParse.flags a) -> s <> "--"%string ->
  ArgParse.classify ArgParse.parser (f ++ "=" ++ s)
  = ArgParse.Optional a (Some s).
Proof.
  unfold stores, ArgParse.parser. intros [Ha Hs] Hf Hd.
  apply String.eqb_neq in Hd.
  repeat (destruct Ha as [<-|Ha]; [try discriminate Hs; cbn in Hf;
    repeat (destruct Hf as [<-|Hf];
            [cbn; rewrite Hd; reflexivity|]); contradiction|]).
  contradiction.
Qed.

Lemma classify_in t a e :
  ArgParse.classify ArgParse.parser t = ArgParse.Optional a e ->
  In a ArgParse.parser.
Proof.
  unfold ArgParse.classify.
  destruct t as [|c rest]; [discriminate|].
  assert (forall f x, ArgParse.find_flag ArgParse.parser f = Some x ->
                      In x ArgParse.parser) as Hf.
  { intros f x H. unfold ArgParse.find_flag in H.
    apply find_some in H. exact (proj1 H). }
  destruct c as [[] [] [] [] [] [] [] []]; try discriminate.
  destruct rest as [|c' rest']; [discriminate|].
  destruct (ArgParse.find_flag ArgParse.parser _) eqn:F1.
  - intros H. injection H as <- _. exact (Hf _ _ F1).
  - destruct (ArgParse.is_negative_number _); [discriminate|].
    destruct c' as [[] [] [] [] [] [] [] []]; try discriminate.
    destruct (ArgParse.split_at_equals _) as [[flag v]|]; [|discriminate].
    destruct (ArgParse.find_flag ArgParse.parser flag) eqn:F2; [|discriminate].
    destruct (String.eqb v "--"); [discriminate|].
    intros H. injection H as <- _. exact (Hf _ _ F2).
Qed.

Lemma table_ok a : In a ArgParse.parser -> entry_ok a = true.
Proof.
  assert (forallb entry_ok ArgParse.parser = true) as H by reflexivity.
  rewrite forallb_forall in H. exact (H a).
Qed.

Lemma same_kind_trans a b c :
  same_kind a b = true -> same_kind b c = true -> same_kind a c = true.
Proof. destruct a, b, c; cbn; congruence. Qed.

Lemma same_shape_refl ns : same_shape ns ns.
Proof.
  unfold same_shape. induction ns as [|[n v] rest IH]; constructor.
  - split; [reflexivity|]. destruct v; reflexivity.
  - exact IH.
Qed.

Lemma same_shape_keys ns ds : same_shape ns ds -> map fst ns = map fst ds.
Proof.
  unfold same_shape. induction 1 as [|x d ns ds [Hn _] _ IH]; [reflexivity|].
  cbn [map]. rewrite Hn, IH. reflexivity.
Qed.

Lemma setattr_shape name v d ns ds :
  same_shape ns ds ->
  ArgParse.getattr name ds = Some d ->
  same_kind v d = true ->
  same_shape (ArgParse.setattr name v ns) ds.
Proof.
  unfold same_shape. intros H. revert d.
  induction H as [|[n x] [m y] ns ds [Hn Hk] Ht IH]; intros d Hd Hv.
  - discriminate.
  - cbn in Hn, Hk, Hd |- *. subst m.
    destruct (String.eqb n name) eqn:E.
    + injection Hd as ->. constructor; [|exact Ht]. split; [reflexivity|exact Hv].
    + constructor; [split; [reflexivity|exact Hk]|]. exact (IH d Hd Hv).
Qed.

Section ParserFurther.
Variable py_int : string -> option Z.
Variable py_float : string -> option float.

Lemma convert_kind ty s v :
  ArgParse.convert py_int py_float ty s = Some v ->
  same_kind v (sample ty) = true.
Proof.
  destruct ty; cbn.
  - intros H. injection H as <-. reflexivity.
  - destruct (py_int s); cbn; [|discriminate].
    intros H. injection H as <-. reflexivity.
  - destruct (py_float s); cbn; [|discriminate].
    intros H. injection H as <-. reflexivity.
Qed.

Lemma stored_value_fits a ty s v :
  stores a ty ->
  ArgParse.convert py_int py_float ty s = Some v ->
  exists d,
    ArgParse.getattr (ArgParse.dest a) (ArgParse.defaults ArgParse.parser)
    = Some d
    /\ same_kind v d = true.
Proof.
  intros [Ha Hs] Hc. pose proof (table_ok a Ha) as T.
  unfold entry_ok in T. rewrite Hs in T.
  destruct (ArgParse.getattr (ArgParse.dest a)
                             (ArgParse.defaults ArgParse.parser)) as [d|];
    [|discriminate].
  exists d. split; [reflexivity|].
  exact (same_kind_trans _ _ _ (convert_kind ty s v Hc) T).
Qed.

(** Reading a registered option and its value. *)
Lemma consume_store a ty f s v rest ns extras :
  stores a ty -> In f (ArgParse.flags a) ->
  ArgParse.classify ArgParse.parser s = ArgParse.Positional ->
  ArgParse.convert py_int py_float ty s = Some v ->
  ArgParse.consume py_int py_float ArgParse.parser (f :: s :: rest)
                   ns None extras
  = ArgParse.consume py_int py_float ArgParse.parser rest
                     (ArgParse.setattr (ArgParse.dest a) v ns) None extras.
Proof.
  intros [Ha Hs] Hf Hp Hc.
  cbn [ArgParse.consume].
  rewrite (classify_flag a f Ha Hf). cbv beta iota.
  rewrite Hs, Hp, Hc. reflexivity.
Qed.

(** X14. Every option that stores a value does so under its own attribute
    and leaves the other attributes at their defaults, whether the value
    comes as the next argument or after an equals sign (where the value
    [--] is left out: argparse does not read it as a value); the value is
    the declared type's reading of the string. *)
Theorem option_is_stored a ty f s v :
  stores a ty -> In f (ArgParse.flags a) ->
  ArgParse.convert py_int py_float ty s = Some v ->
  (ArgParse.classify ArgParse.parser s = ArgParse.Positional ->
   ArgParse.arg_parse py_int py_float [f; s]
   = ArgParse.Parsed
       (ArgParse.setattr (ArgParse.dest a) v
                         (ArgParse.defaults ArgParse.parser)))
  /\ (s <> "--"%string ->
      ArgParse.arg_parse py_int py_float [f ++ "=" ++ s]%string
      = ArgParse.Parsed
          (ArgParse.setattr (ArgParse.dest a) v
                            (ArgParse.defaults ArgParse.parser)))
  /\ ArgParse.getattr (ArgParse.dest a)
       (ArgParse.setattr (ArgParse.dest a) v
                         (ArgParse.defaults ArgParse.parser)) = Some v
  /\ forall name,
       name <> ArgParse.dest a ->
       ArgParse.getattr name
         (ArgParse.setattr (ArgParse.dest a) v
                           (ArgParse.defaults ArgParse.parser))
       = ArgParse.getattr name (ArgParse.defaults ArgParse.parser).
Proof.
  intros Hst Hf Hc. split; [|split; [|split]].
  - intros Hp. unfold ArgParse.arg_parse, ArgParse.parse_args, ArgParse.in_scope.
    cbn [forallb]. rewrite (classify_flag a f (proj1 Hst) Hf), Hp.
    cbn [andb].
    rewrite (consume_store a ty f s v [] _ false Hst Hf Hp Hc). reflexivity.
  - intros Hd. unfold ArgParse.arg_parse, ArgParse.parse_args, ArgParse.in_scope.
    cbn [forallb ArgParse.consume].
    rewrite (classify_flag_equals a ty f s Hst Hf Hd). cbn [andb].
    rewrite (proj2 Hst), Hc. reflexivity.
  - apply getattr_setattr_same.
  - intros name Hn. apply getattr_setattr_other. exact Hn.
Qed.

(** X15. An option that stores a value makes [arg_parse] exit with status 2
    when it comes last, without its value, and when its value is not of the
    declared type. *)
Theorem option_needs_a_fitting_value a ty f :
  stores a ty -> In f (ArgParse.flags a) ->
  ArgParse.arg_parse py_int py_float [f] = ArgParse.SystemExit 2
  /\ forall s,
      ArgParse.classify ArgParse.parser s = ArgParse.Positional ->
      ArgParse.convert py_int py_float ty s = None ->
      ArgParse.arg_parse py_int py_float [f; s] = ArgParse.SystemExit 2.
Proof.
  intros [Ha Hs] Hf. split.
  - unfold ArgParse.arg_parse, ArgParse.parse_args, ArgParse.in_scope.
    cbn [forallb ArgParse.consume].
    rewrite (classify_flag a f Ha Hf), Hs. reflexivity.
  - intros s Hp Hc.
    unfold ArgParse.arg_parse, ArgParse.parse_args, ArgParse.in_scope.
    cbn [forallb ArgParse.consume].
    rewrite (classify_flag a f Ha Hf), Hp, Hs, Hc. reflexivity.
Qed.

Lemma shape_store a ty s v ns :
  In a ArgParse.parser -> ArgParse.action a = ArgParse.Store ty ->
  ArgParse.convert py_int py_float ty s = Some v ->
  same_shape ns (ArgParse.defaults ArgParse.parser) ->
  same_shape (ArgParse.setattr (ArgParse.dest a) v ns)
             (ArgParse.defaults ArgParse.parser).
Proof.
  intros Ha Hs Hc H.
  destruct (stored_value_fits a ty s v (conj Ha Hs) Hc) as (d & Hd & Hk).
  exact (setattr_shape _ _ _ _ _ H Hd Hk).
Qed.

Lemma shape_flag a ns :
  In a ArgParse.parser -> ArgParse.action a = ArgParse.StoreTrue ->
  same_shape ns (ArgParse.defaults ArgParse.parser) ->
  same_shape (ArgParse.setattr (ArgParse.dest a) (ArgParse.VBool true) ns)
             (ArgParse.defaults ArgParse.parser).
Proof.
  intros Ha Hs H. pose proof (table_ok a Ha) as T.
  unfold entry_ok in T. rewrite Hs in T.
  destruct (ArgParse.getattr (ArgParse.dest a)
                             (ArgParse.defaults ArgParse.parser)) as [d|] eqn:Hd;
    [|discriminate].
  exact (setattr_shape _ _ _ _ _ H Hd T).
Qed.

Lemma consume_shape argv : forall ns pending extras ns',
  same_shape ns (ArgParse.defaults ArgParse.parser) ->
  (forall a, pending = Some a -> In a ArgParse.parser) ->
  ArgParse.consume py_int py_float ArgParse.parser argv ns pending extras
  = ArgParse.Parsed ns' ->
  same_shape ns' (ArgParse.defaults ArgParse.parser).
Proof.
  induction argv as [|t rest IH]; intros ns pending extras ns' Hsh Hp H.
  - cbn in H. destruct pending; [discriminate|].
    destruct extras; [discriminate|]. injection H as <-. exact Hsh.
  - cbn [ArgParse.consume] in H.
    destruct pending as [a|].
    + pose proof (Hp a eq_refl) as Ha.
      destruct (ArgParse.classify ArgParse.parser t); try discriminate.
      destruct (ArgParse.action a) as [ty| |] eqn:A; try discriminate.
      destruct (ArgParse.convert py_int py_float ty t) as [v|] eqn:Cv;
        [|discriminate].
      apply (IH _ _ _ _ (shape_store a ty t v ns Ha A Cv Hsh)) in H;
        [exact H | discriminate].
    + destruct (ArgParse.classify ArgParse.parser t) as [|a e|] eqn:C;
        try discriminate.
      * apply (IH _ _ _ _ Hsh) in H; [exact H | discriminate].
      * pose proof (classify_in t a e C) as Ha.
        destruct e as [v|].
        -- destruct (ArgParse.action a) as [ty| |] eqn:A; try discriminate.
           destruct (ArgParse.convert py_int py_float ty v) as [x|] eqn:Cv;
             [|discriminate].
           apply (IH _ _ _ _ (shape_store a ty v x ns Ha A Cv Hsh)) in H;
             [exact H | discriminate].
        -- destruct (ArgParse.action a) as [ty| |] eqn:A; try discriminate.
           ++ apply (IH _ _ _ _ Hsh) in H; [exact H|].
              intros a' Ea. injection Ea as <-. exact Ha.
           ++ apply (IH _ _ _ _ (shape_flag a ns Ha A Hsh)) in H;
                [exact H | discriminate].
Qed.

(** X16. On the command lines the model reads (registered flags written
    in full, a registered long flag followed by [=] and a value other than
    [--], and strings that are no options), a configuration [arg_parse]
    returns has the thirteen attributes of the defaults, in the same order,
    each holding a value of the kind of its default (string, integer, float
    or boolean). *)
Theorem parsed_namespace_has_default_shape argv ns :
  ArgParse.arg_parse py_int py_float argv = ArgParse.Parsed ns ->
  ArgParse.in_scope ArgParse.parser argv = true
  /\ same_shape ns (ArgParse.defaults ArgParse.parser)
  /\ map fst ns
     = [ "data_dir"; "workers"; "save_dir"; "pretrained"; "gpu"; "epoch";
         "val_epoch"; "train_batch"; "test_batch"; "lr"; "weight_decay";
         "resume"; "random_seed" ]%string.
Proof.
  intros H. unfold ArgParse.arg_parse, ArgParse.parse_args in H.
  destruct (ArgParse.in_scope ArgParse.parser argv); [|discriminate].
  assert (same_shape ns (ArgParse.defaults ArgParse.parser)) as S.
  { apply (consume_shape argv _ None false ns (same_shape_refl _));
      [discriminate | exact H]. }
  split; [reflexivity|]. split; [exact S|].
  change ([ "data_dir"; "workers"; "save_dir"; "pretrained"; "gpu"; "epoch";
            "val_epoch"; "train_batch"; "test_batch"; "lr"; "weight_decay";
            "resume"; "random_seed" ]%string)
    with (map fst (ArgParse.defaults ArgParse.parser)).
  exact (same_shape_keys _ _ S).
Qed.

(** X17. [-h] or [--help] in front makes [arg_parse] exit with status 0,
    whatever follows it on a command line the model reads. *)
Theorem help_exits_cleanly rest :
  ArgParse.in_scope ArgParse.parser rest = true ->
  ArgParse.arg_parse py_int py_float ("-h"%string :: rest)
  = ArgParse.SystemExit 0
  /\ ArgParse.arg_parse py_int py_float ("--help"%string :: rest)
     = ArgParse.SystemExit 0.
Proof.
  intros H.
  unfold ArgParse.arg_parse, ArgParse.parse_args, ArgParse.in_scope in *.
  cbn [forallb].
  change (ArgParse.classify ArgParse.parser "-h")
    with (ArgParse.Optional ArgParse.help_argument None).
  change (ArgParse.classify ArgParse.parser "--help")
    with (ArgParse.Optional ArgParse.help_argument None).
  cbn [andb]. rewrite H. cbn [ArgParse.consume].
  change (ArgParse.classify ArgParse.parser "-h")
    with (ArgParse.Optional ArgParse.help_argument None).
  change (ArgParse.classify ArgParse.parser "--help")
    with (ArgParse.Optional ArgParse.help_argument None).
  split; reflexivity.
Qed.

(** X18. [arg_parse] registers no positional argument: a non-empty command
    line made only of strings that are no options exits with status 2. *)
Theorem positionals_are_rejected argv :
  argv <> [] ->
  Forall (fun t => ArgParse.classify ArgParse.parser t = ArgParse.Positional)
         argv ->
  ArgParse.arg_parse py_int py_float argv = ArgParse.SystemExit 2.
Proof.
  intros Hne Hall.
  unfold ArgParse.arg_parse, ArgParse.parse_args.
  assert (ArgParse.in_scope ArgParse.parser argv = true) as S.
  { unfold ArgParse.in_scope. apply forallb_forall. intros t Ht.
    rewrite Forall_forall in Hall. rewrite (Hall t Ht). reflexivity. }
  rewrite S.
  assert (forall l,
             Forall (fun t => ArgParse.classify ArgParse.parser t
                              = ArgParse.Positional) l ->
             forall ns,
               ArgParse.consume py_int py_float ArgParse.parser l ns None true
               = ArgParse.SystemExit 2) as T.
  { induction 1 as [|t rest Ht _ IH]; intros ns.
    - reflexivity.
    - cbn [ArgParse.consume]. rewrite Ht. apply IH. }
  destruct argv as [|t rest]; [congruence|].
  inversion Hall as [|? ? Ht Hr]; subst.
  cbn [ArgParse.consume]. rewrite Ht. apply T. exact Hr.
Qed.

(** X19. Two options that store values under different attributes can be
    given in either order: the configuration is the same. *)
Theorem options_commute a1 ty1 f1 s1 v1 a2 ty2 f2 s2 v2 :
  stores a1 ty1 -> In f1 (ArgParse.flags a1) ->
  stores a2 ty2 -> In f2 (ArgParse.flags a2) ->
  ArgParse.dest a1 <> ArgParse.dest a2 ->
  ArgParse.classify ArgParse.parser s1 = ArgParse.Positional ->
  ArgParse.classify ArgParse.parser s2 = ArgParse.Positional ->
  ArgParse.convert py_int py_float ty1 s1 = Some v1 ->
  ArgParse.convert py_int py_float ty2 s2 = Some v2 ->
  ArgParse.arg_parse py_int py_float [f1; s1; f2; s2]
  = ArgParse.arg_parse py_int py_float [f2; s2; f1; s1]
  /\ ArgParse.arg_parse py_int py_float [f1; s1; f2; s2]
     = ArgParse.Parsed
         (ArgParse.setattr (ArgParse.dest a2) v2
            (ArgParse.setattr (ArgParse.dest a1) v1
                              (ArgParse.defaults ArgParse.parser))).
Proof.
  intros St1 Hf1 St2 Hf2 Hd Hp1 Hp2 Hc1 Hc2.
  assert (forall a ty f s v b tb g t u,
             stores a ty -> In f (ArgParse.flags a) ->
             stores b tb -> In g (ArgParse.flags b) ->
             ArgParse.classify ArgParse.parser s = ArgParse.Positional ->
             ArgParse.classify ArgParse.parser t = ArgParse.Positional ->
             ArgParse.convert py_int py_float ty s = Some v ->
             ArgParse.convert py_int py_float tb t = Some u ->
             ArgParse.arg_parse py_int py_float [f; s; g; t]
             = ArgParse.Parsed
                 (ArgParse.setattr (ArgParse.dest b) u
                    (ArgParse.setattr (ArgParse.dest a) v
                       (ArgParse.defaults ArgParse.parser)))) as Two.
  { intros a ty f s v b tb g t u Sa Fa Sb Fb Ps Pt Cs Ct.
    unfold ArgParse.arg_parse, ArgParse.parse_args, ArgParse.in_scope.
    cbn [forallb].
    rewrite (classify_flag a f (proj1 Sa) Fa), Ps,
      (classify_flag b g (proj1 Sb) Fb), Pt.
    cbn [andb].
    rewrite (consume_store a ty f s v _ _ false Sa Fa Ps Cs).
    rewrite (consume_store b tb g t u _ _ false Sb Fb Pt Ct).
    reflexivity. }
  rewrite (Two a1 ty1 f1 s1 v1 a2 ty2 f2 s2 v2 St1 Hf1 St2 Hf2 Hp1 Hp2 Hc1 Hc2).
  rewrite (Two a2 ty2 f2 s2 v2 a1 ty1 f1 s1 v1 St2 Hf2 St1 Hf1 Hp2 Hp1 Hc2 Hc1).
  split; [|reflexivity]. f_equal.
  destruct (stored_value_fits a1 ty1 s1 v1 St1 Hc1) as (d1 & G1 & _).
  destruct (stored_value_fits a2 ty2 s2 v2 St2 Hc2) as (d2 & G2 & _).
  apply setattr_comm.
  - intros E. apply Hd. symmetry. exact E.
  - exact (getattr_in _ _ _ G2).
  - exact (getattr_in _ _ _ G1).
Qed.

End ParserFurther.

(* ------------------------------------------------------------------ *)
(** ** The further facts at the concrete instances *)

Import Demo2.

Lemma fit_without_epochs_witness :
  -3 <= 0
  /\ fit single (-3) fresh = (Ret tt, fresh, [Print StartTraining]).
Proof.
  assert (-3 <= 0) as H by discriminate.
  exact (conj H (fit_without_epochs single (-3) fresh H)).
Defined.

Lemma fit_zero_accumulation_witness :
  outcome (fit stalled 2 fresh) = Raise ZeroDivisionError
  /\ calls (fit stalled 2 fresh)
     = [Print StartTraining; ModelTrain; MetricReset; ModelForward; Criterion]
  /\ params (world (fit stalled 2 fresh)) = params fresh.
Proof.
  assert (1 <= 2) as He by discriminate.
  assert (train_loader stalled <> []) as Ht by discriminate.
  pose proof (fit_zero_accumulation stalled 2 fresh He eq_refl Ht) as H.
  exact (conj (proj1 H) (conj (proj1 (proj2 H)) (proj1 (proj2 (proj2 H))))).
Defined.

Lemma fit_without_training_batches_witness :
  fit starved 2 fresh
  = (Raise UnboundLocalError, entered_training fresh,
     [Print StartTraining; ModelTrain; MetricReset]).
Proof.
  assert (1 <= 2) as He by discriminate.
  exact (fit_without_training_batches starved 2 fresh He eq_refl).
Defined.


(** Two batches and a step after each: the first batch steps, the second
    is never reached. *)
Lemma metric_named_loss_stops_training_witness :
  outcome (fit clashing 3 clashing_world) = Raise TypeError
  /\ params (world (fit clashing 3 clashing_world)) = 1%nat
  /\ count is_step (calls (fit clashing 3 clashing_world)) = 1%nat
  /\ saved (calls (fit clashing 3 clashing_world)) = [].
Proof.
  assert (1 <= 3) as He by discriminate.
  assert (accumulate_gradient clashing <> 0) as Hk by discriminate.
  pose proof (metric_named_loss_stops_training
                clashing 3 clashing_world (O, O) [(1%nat, O)]
                He eq_refl Hk eq_refl) as (O1 & W1 & _ & S1 & _ & Sa).
  split; [exact O1|]. split; [rewrite W1; reflexivity|].
  split; [exact S1 | exact Sa].
Defined.

(** The second of two batches closes the window: one optimizer step. *)
Lemma batch_accumulates_then_steps_witness :
  (opt_state
     (world (train_batch paired 1 (1%nat, O)
               {| loc_idx := Some 0; loc_iters := 0; loc_batch_loss := 0 |}
               fresh)),
   params
     (world (train_batch paired 1 (1%nat, O)
               {| loc_idx := Some 0; loc_iters := 0; loc_batch_loss := 0 |}
               fresh)))
  = (tt, 1%nat).
Proof.
  assert (accumulate_gradient paired <> 0) as Hk by discriminate.
  assert (0 <= 1) as Hi by discriminate.
  exact (proj1 (proj2 (proj2
           (batch_accumulates_then_steps
              paired 1 (1%nat, O)
              {| loc_idx := Some 0; loc_iters := 0; loc_batch_loss := 0 |}
              fresh Hk Hi))) eq_refl).
Defined.

(** Three batches, a step every second: the third batch is dropped. *)
Lemma incomplete_window_is_dropped_witness :
  params (world (_run_one_epoch odd 1 (-1) fresh))
  = params
      (world
         (for_enumerate (train_batch odd) 0 [(O, O); (1%nat, O)]
            {| loc_idx := None; loc_iters := -1; loc_batch_loss := 0 |}
            (entered_training fresh))).
Proof.
  assert (0 < accumulate_gradient odd) as Hk by reflexivity.
  assert (train_loader odd <> []) as Ht by discriminate.
  assert ((batches odd - 1) mod 4 <> 0) as H4 by discriminate.
  exact (proj1 (incomplete_window_is_dropped odd 1 (-1) fresh Hk Ht H4)).
Defined.





Lemma revalidation_saves_nothing_witness :
  exists loss val_iou best_iou',
    outcome (_eval_one_epoch single 1 (-1) 0%float stepped_twice)
    = Ret (loss, val_iou, -1 + val_batches single, best_iou')
    /\ outcome (_eval_one_epoch single 2 0 best_iou'
                  (world (_eval_one_epoch single 1 (-1) 0%float stepped_twice)))
       = Ret (loss, val_iou, 0 + val_batches single, best_iou')
    /\ val_events single
         (calls (_eval_one_epoch single 2 0 best_iou'
                   (world (_eval_one_epoch single 1 (-1) 0%float
                                           stepped_twice))))
       = [Scored 2 val_iou].
Proof.
  assert (val_loader single <> []) as Hv by discriminate.
  exact (revalidation_saves_nothing single 1 (-1) 0%float stepped_twice 2 0 Hv).
Defined.

Lemma nan_score_is_never_best_witness :
  PrimFloat.is_nan PrimFloat.nan = true
  /\ val_events unscored
       (calls (_eval_one_epoch unscored 1 (-1) 0%float unscored_world))
     = [Scored 1 PrimFloat.nan].
Proof.
  split; [reflexivity|].
  exact (proj2 (nan_score_is_never_best unscored 1 (-1) 0%float unscored_world
                                         eq_refl)).
Defined.

(** The only epoch of [ragged] scores 0.0: no best-model checkpoint. *)
Lemma no_best_model_without_positive_score_witness :
  val_events ragged (calls (fit ragged 1 fresh)) = [Scored 1 0%float].
Proof.
  assert (Forall (fun s => PrimFloat.ltb 0%float (snd s) = false)
                 (val_scores ragged (calls (fit ragged 1 fresh)))) as H.
  { vm_compute. repeat constructor. }
  exact (no_best_model_without_positive_score ragged 1 fresh H).
Defined.

Lemma workers_stores : stores workers_option ArgParse.TInt.
Proof. split; [right; right; left; reflexivity | reflexivity]. Defined.

Lemma gpu_stores : stores gpu_option ArgParse.TInt.
Proof.
  split; [do 5 right; left; reflexivity | reflexivity].
Defined.

Lemma option_is_stored_witness :
  ArgParse.arg_parse int_of_decimal no_float ["--workers"; "8"]%string
  = ArgParse.arg_parse int_of_decimal no_float ["--workers=8"]%string
  /\ ArgParse.getattr "workers"
       (ArgParse.setattr "workers" (ArgParse.VInt 8)
                         (ArgParse.defaults ArgParse.parser))
     = Some (ArgParse.VInt 8).
Proof.
  pose proof (option_is_stored int_of_decimal no_float workers_option
                ArgParse.TInt "--workers" "8" (ArgParse.VInt 8)
                workers_stores (or_introl eq_refl) eq_refl) as H.
  assert ("8"%string <> "--"%string) as Hd by discriminate.
  split.
  - rewrite (proj1 H eq_refl). symmetry. exact (proj1 (proj2 H) Hd).
  - exact (proj1 (proj2 (proj2 H))).
Defined.

Lemma option_needs_a_fitting_value_witness :
  ArgParse.arg_parse int_of_decimal no_float ["--workers"]%string
  = ArgParse.SystemExit 2
  /\ ArgParse.arg_parse int_of_decimal no_float ["--workers"; "many"]%string
     = ArgParse.SystemExit 2.
Proof.
  pose proof (option_needs_a_fitting_value int_of_decimal no_float
                workers_option ArgParse.TInt "--workers"
                workers_stores (or_introl eq_refl)) as H.
  exact (conj (proj1 H) (proj2 H "many"%string eq_refl eq_refl)).
Defined.

Lemma parsed_namespace_has_default_shape_witness :
  exists ns,
    ArgParse.arg_parse int_of_decimal no_float ["--gpu"; "1"]%string
    = ArgParse.Parsed ns
    /\ map fst ns
       = [ "data_dir"; "workers"; "save_dir"; "pretrained"; "gpu"; "epoch";
           "val_epoch"; "train_batch"; "test_batch"; "lr"; "weight_decay";
           "resume"; "random_seed" ]%string.
Proof.
  eexists. split; [reflexivity|].
  exact (proj2 (proj2 (parsed_namespace_has_default_shape
                         int_of_decimal no_float ["--gpu"; "1"]%string _
                         eq_refl))).
Defined.

Lemma help_exits_cleanly_witness :
  ArgParse.arg_parse int_of_decimal no_float ["-h"; "--lr"]%string
  = ArgParse.SystemExit 0.
Proof.
  exact (proj1 (help_exits_cleanly int_of_decimal no_float ["--lr"]%string
                                   eq_refl)).
Defined.

Lemma positionals_are_rejected_witness :
  ArgParse.arg_parse int_of_decimal no_float ["train"; "now"]%string
  = ArgParse.SystemExit 2.
Proof.
  assert (["train"; "now"]%string <> []) as Hne by discriminate.
  assert (Forall (fun t => ArgParse.classify ArgParse.parser t
                           = ArgParse.Positional)
                 ["train"; "now"]%string) as Hall.
  { repeat constructor. }
  exact (positionals_are_rejected int_of_decimal no_float _ Hne Hall).
Defined.

Lemma options_commute_witness :
  ArgParse.arg_parse int_of_decimal no_float
                     ["--workers"; "8"; "--gpu"; "1"]%string
  = ArgParse.arg_parse int_of_decimal no_float
                       ["--gpu"; "1"; "--workers"; "8"]%string.
Proof.
  assert (ArgParse.dest workers_option <> ArgParse.dest gpu_option) as Hd
    by discriminate.
  exact (proj1 (options_commute int_of_decimal no_float
                  workers_option ArgParse.TInt "--workers" "8" (ArgParse.VInt 8)
                  gpu_option ArgParse.TInt "--gpu" "1" (ArgParse.VInt 1)
                  workers_stores (or_introl eq_refl)
                  gpu_stores (or_introl eq_refl)
                  Hd eq_refl eq_refl eq_refl eq_refl)).
Defined.
